(** * rezplugins/build_system/cmake.py: the CMake build-system plugin of rez.

    A shallow embedding of [CMakeBuildSystem]: generator discovery
    ([build_systems], [default_build_system]), the tool lookup
    ([_find_cmake]) and the configure / build / install pipeline ([build]).

    Python strings are [string]s, Python lists are [list]s, the class
    attributes that [build_systems] caches live in an explicit store, raised
    exceptions are values of [exn], and every external process the code starts
    is recorded in a trace of events. *)

From Stdlib Require Import String Ascii List ZArith Bool Lia.
From Stdlib Require Import DecimalString.
Import ListNotations.

Open Scope string_scope.
Open Scope list_scope.

(** ** Python's string methods, as far as the plugin uses them *)

Module Py.

(** The newline character, the separator of [stdout.split("\n")]. *)
Definition nl : ascii := Ascii.ascii_of_nat 10.

(** The backslash that [replace('\\', '/')] rewrites. *)
Definition backslash : string := String (Ascii.ascii_of_nat 92) EmptyString.

(** [s.split(sep)] for a one-character separator: the pieces between the
    occurrences of [sep]; always at least one piece. *)
Fixpoint split (sep : ascii) (s : string) : list string :=
  match s with
  | EmptyString => [EmptyString]
  | String c rest =>
      if Ascii.eqb c sep then EmptyString :: split sep rest
      else match split sep rest with
           | [] => [String c EmptyString]
           | piece :: pieces => String c piece :: pieces
           end
  end.

(** [c in s] for a one-character [c]. *)
Fixpoint contains (c : ascii) (s : string) : bool :=
  match s with
  | EmptyString => false
  | String d rest => Ascii.eqb d c || contains c rest
  end.

(** [s.startswith(p)]. *)
Definition startswith (s p : string) : bool := String.prefix p s.

(** [s[n:]]. *)
Fixpoint drop (n : nat) (s : string) : string :=
  match n, s with
  | O, _ => s
  | S _, EmptyString => EmptyString
  | S m, String _ rest => drop m rest
  end.

(** [s.replace(old, new)] for a non-empty [old]: the occurrences of [old] are
    replaced from left to right, without overlap.  [skip] counts the
    characters of a matched occurrence that are still to be dropped. *)
Fixpoint replace_from (old new : string) (skip : nat) (s : string) : string :=
  match s with
  | EmptyString => EmptyString
  | String c rest =>
      match skip with
      | S k => replace_from old new k rest
      | O =>
          if String.prefix old s
          then new ++ replace_from old new (String.length old - 1) rest
          else String c (replace_from old new O rest)
      end
  end.

Definition replace (s old new : string) : string := replace_from old new O s.

(** [s.lstrip(" ")]. *)
Fixpoint lstrip (s : string) : string :=
  match s with
  | String " " rest => lstrip rest
  | _ => s
  end.

(** [s.rstrip(" ")]. *)
Fixpoint rstrip (s : string) : string :=
  match s with
  | EmptyString => EmptyString
  | String c rest =>
      match rstrip rest with
      | EmptyString => if Ascii.eqb c " " then EmptyString else String c EmptyString
      | kept => String c kept
      end
  end.

(** [s.strip(" ")]. *)
Definition strip (s : string) : string := rstrip (lstrip s).

(** [sep.join(xs)]. *)
Definition join (sep : string) (xs : list string) : string := String.concat sep xs.

(** ["%d" % n]. *)
Definition fmt_d (n : Z) : string := NilZero.string_of_int (Z.to_int n).

(** [x in xs] for a list of strings. *)
Definition mem (x : string) (xs : list string) : bool :=
  existsb (String.eqb x) xs.

(** [xs or []]. *)
Definition or_nil (xs : option (list string)) : list string :=
  match xs with
  | Some l => l
  | None => []
  end.

(** Truth value of an optional string: [None] and the empty string are
    false. *)
Definition truthy (s : option string) : bool :=
  match s with
  | None => false
  | Some EmptyString => false
  | Some _ => true
  end.

End Py.

(** ** Dictionaries with string keys

    [dict(zip(generators, generators))] and [legacy_build_systems]: an
    insertion-ordered association list without duplicate keys; setting an
    existing key keeps its position and replaces its value. *)

Module Dict.

Definition t : Type := list (string * string).

Fixpoint setitem (k v : string) (d : t) : t :=
  match d with
  | [] => [(k, v)]
  | (k', v') :: rest =>
      if String.eqb k k' then (k, v) :: rest else (k', v') :: setitem k v rest
  end.

(** [dict(pairs)]: the pairs are inserted from left to right. *)
Definition of_pairs (pairs : list (string * string)) : t :=
  fold_left (fun d kv => setitem (fst kv) (snd kv) d) pairs [].

Definition keys (d : t) : list string := map fst d.

Fixpoint get (k : string) (d : t) : option string :=
  match d with
  | [] => None
  | (k', v) :: rest => if String.eqb k k' then Some v else get k rest
  end.

End Dict.

(** ** Exceptions, events and the store *)

(** The exceptions the plugin can raise: the [ValueError] of a failed tuple
    unpacking, the [KeyError] of a failed dictionary subscript, and the
    plugin's own [RezCMakeError]. *)
Inductive exn : Type :=
| ValueError
| KeyError (key : string)
| RezCMakeError (msg : string).

Inductive result (A : Type) : Type :=
| Ok (a : A)
| Raise (e : exn).
Arguments Ok {A} a.
Arguments Raise {A} e.

(** The keyword arguments [create_forwarding_script] receives. *)
Record ForwardArgs : Type := {
  fwd_working_dir : string;
  fwd_build_path : string;
  fwd_variant_index : option Z;
  fwd_install : bool;
  fwd_install_path : string
}.

(** What the plugin does to the outside world, in order. *)
Inductive event : Type :=
| Popen (cmd : list string)
| Print (s : string)
| ExecuteShell (command : list string) (cwd : string)
| CreateForwardingScript (path : string) (args : ForwardArgs).

(** The class attributes of [CMakeBuildSystem] that [build_systems]
    populates, and the trace of events so far. *)
Record Store : Type := {
  _default_build_system : option string;
  _build_systems : option Dict.t;
  trace : list event
}.

(** The store of a fresh process: both class attributes are [None]. *)
Definition fresh : Store :=
  {| _default_build_system := None; _build_systems := None; trace := [] |}.

Definition M (A : Type) : Type := Store -> result A * Store.

Definition ret {A} (a : A) : M A := fun st => (Ok a, st).
Definition raise {A} (e : exn) : M A := fun st => (Raise e, st).
Definition bind {A B} (m : M A) (k : A -> M B) : M B :=
  fun st =>
    match m st with
    | (Ok a, st') => k a st'
    | (Raise e, st') => (Raise e, st')
    end.
Definition lift {A} (r : result A) : M A := fun st => (r, st).

Notation "x <- m ;; k" := (bind m (fun x => k))
  (at level 61, m at next level, right associativity).
Notation "m ;;; k" := (bind m (fun _ => k))
  (at level 61, right associativity).

Definition emit (e : event) : M unit :=
  fun st =>
    (Ok tt, {| _default_build_system := _default_build_system st;
               _build_systems := _build_systems st;
               trace := trace st ++ [e] |}).

Definition set_default_build_system (name : string) : M unit :=
  fun st =>
    (Ok tt, {| _default_build_system := Some name;
               _build_systems := _build_systems st;
               trace := trace st |}).

Definition set_build_systems (d : Dict.t) : M unit :=
  fun st =>
    (Ok tt, {| _default_build_system := _default_build_system st;
               _build_systems := Some d;
               trace := trace st |}).

Definition get_store : M Store := fun st => (Ok st, st).

(** The phases executed so far: the commands handed to
    [context.execute_shell]. *)
Fixpoint phases (tr : list event) : list (list string) :=
  match tr with
  | [] => []
  | ExecuteShell command _ :: rest => command :: phases rest
  | _ :: rest => phases rest
  end.

(** ** The collaborators outside the plugin *)

(** The host: platform, global configuration, [which], the output of
    [popen(...).communicate()], the shell's key token and [os.path].
    [ntpath_join] is [os.path.join] of a windows host, [ntpath.join], which
    never joins a non-empty last component to an empty path. *)
Record Host : Type := {
  platform_name : string;
  config_cmake_binary : option string;
  rez_1_cmake_variables : bool;
  disable_rez_1_compatibility : bool;
  which : string -> option string;
  popen_stdout : list string -> string;
  get_key_token : string -> string;
  abspath : string -> string;
  realpath : string -> string;
  ntpath_join : string -> string -> string;
  abspath_nonempty : forall p, abspath p <> EmptyString;
  ntpath_join_nonempty :
    forall a b, b <> EmptyString -> ntpath_join a b <> EmptyString
}.

(** The resolved context: [context.which("cmake", fallback=True)] and the
    return code of [context.execute_shell], which may depend on everything
    that happened before. *)
Record Context : Type := {
  context_which : string -> option string;
  retcode_of : list event -> list string -> string -> Z
}.

(** [rez.build_process_.BuildType]. *)
Inductive BuildType : Type := local | central.

Definition BuildType_name (b : BuildType) : string :=
  match b with
  | local => "local"
  | central => "central"
  end.

Definition BuildType_eqb (a b : BuildType) : bool :=
  match a, b with
  | local, local => true
  | central, central => true
  | _, _ => false
  end.

(** The [cmake] settings of rezconfig.py. *)
Record Settings : Type := {
  s_build_system : option string;
  s_build_target : string;
  cmake_args : list string;
  cmake_binary : option string;
  make_binary : option string;
  install_pyc : bool
}.

(** rezconfig.py. *)
Definition rezconfig : Settings := {|
  s_build_system := None;
  s_build_target := "Release";
  cmake_args := ["-Wno-dev";
                 "-DCMAKE_ECLIPSE_GENERATE_SOURCE_PROJECT=TRUE";
                 "-D_ECLIPSE_VERSION=4.3";
                 "--no-warn-unused-cli"];
  cmake_binary := None;
  make_binary := None;
  install_pyc := true
|}.

Record Variant : Type := {
  index : option Z;
  build_thread_count : Z
}.

(** ** CMakeBuildSystem *)

Definition legacy_build_systems : Dict.t :=
  [("eclipse", "Eclipse CDT4 - Unix Makefiles");
   ("codeblocks", "CodeBlocks - Unix Makefiles");
   ("make", "Unix Makefiles");
   ("nmake", "NMake Makefiles");
   ("mingw", "MinGW Makefiles");
   ("xcode", "Xcode")].

Definition build_targets : list string := ["Debug"; "Release"; "RelWithDebInfo"].

(** [d[k]]: a missing key raises [KeyError]. *)
Definition subscript (d : Dict.t) (k : string) : result string :=
  match Dict.get k d with
  | Some v => Ok v
  | None => Raise (KeyError k)
  end.

(** [_find_cmake(cls, context=None)]. *)
Definition _find_cmake (h : Host) (context : option Context) : result string :=
  let exe :=
    if Py.truthy (config_cmake_binary h) then config_cmake_binary h
    else match context with
         | Some c => context_which c "cmake"
         | None => Some "cmake"
         end in
  match exe with
  | None | Some EmptyString => Raise (RezCMakeError "could not find cmake binary")
  | Some exe =>
      match which h exe with
      | None | Some EmptyString =>
          Raise (RezCMakeError ("cmake binary does not exist: " ++ exe))
      | Some found_exe => Ok found_exe
      end
  end.

(** The body of the [if "=" in line:] branch up to [name.strip(" ")]: the
    name of the generator and whether the line carries the default marker.
    The unpacking [name, _ = line.split("=")] needs exactly two pieces. *)
Definition parse_generator (line : string) : result (string * bool) :=
  match Py.split "=" line with
  | [name; _] =>
      let name := Py.replace name "[arch]" EmptyString in
      let is_default := Py.startswith name "* " in
      let name := if is_default then Py.drop 2 name else name in
      let name := Py.strip name in
      Ok (name, is_default)
  | _ => Raise ValueError
  end.

(** The loop [for line in stdout.split("\n")] of [build_systems], with its
    two local variables. *)
Fixpoint scan (lines : list string) (is_in_generators : bool)
    (generators : list string) : M (list string) :=
  match lines with
  | [] => ret generators
  | line :: rest =>
      if is_in_generators then
        if Py.contains "=" line then
          p <- lift (parse_generator line) ;;
          (if snd p then set_default_build_system (fst p) else ret tt) ;;;
          scan rest true (generators ++ [fst p])
        else scan rest true generators
      else if Py.startswith line "Generators" then scan rest true generators
      else scan rest false generators
  end.

(** [build_systems(cls)]. *)
Definition build_systems (h : Host) : M Dict.t :=
  st <- get_store ;;
  match _build_systems st with
  | Some d => ret d
  | None =>
      found_exe <- lift (_find_cmake h None) ;;
      let cmd := [found_exe; "--help"] in
      emit (Popen cmd) ;;;
      let stdout := popen_stdout h cmd in
      generators <- scan (Py.split Py.nl stdout) false [] ;;
      let d := Dict.of_pairs (combine generators generators) in
      set_build_systems d ;;;
      ret d
  end.

(** [default_build_system(cls)]. *)
Definition default_build_system (h : Host) : M (option string) :=
  build_systems h ;;;
  st <- get_store ;;
  ret (_default_build_system st).

(** [posixpath.join(a, b)]. *)
Definition posixpath_join (a b : string) : string :=
  if Py.startswith b "/" then b
  else if (String.eqb a EmptyString || String.eqb (Py.drop (String.length a - 1) a) "/")%bool
       then (a ++ b)%string
       else (a ++ "/" ++ b)%string.

(** [os.path.join(a, b)]: [ntpath.join] on a windows host, [posixpath.join]
    on every other. *)
Definition os_path_join (h : Host) (a b : string) : string :=
  if String.eqb (platform_name h) "windows"
  then ntpath_join h a b
  else posixpath_join a b.

(** A [CMakeBuildSystem] instance. *)
Record Self : Type := {
  working_dir : string;
  settings : Settings;
  build_target : string;
  cmake_build_system : option string;
  write_build_scripts : bool;
  verbose : bool;
  build_args : option (list string);
  child_build_args : option (list string)
}.

(** The dictionary [ret] that [build] returns. *)
Record BuildResult : Type := {
  success : bool;
  build_env_script : option string
}.

(** [_pr(s)]. *)
Definition _pr (self : Self) (s : string) : M unit :=
  if verbose self then emit (Print s) else ret tt.

(** [context.execute_shell(command=..., block=True, cwd=...)]: the command
    runs and its return code comes back. *)
Definition execute_shell (context : Context) (command : list string)
    (cwd : string) : M Z :=
  st <- get_store ;;
  emit (ExecuteShell command cwd) ;;;
  ret (retcode_of context (trace st) command cwd).

(** ["{}".format(x)] for an optional string. *)
Definition format_opt (x : option string) : string :=
  match x with
  | Some s => s
  | None => "None"
  end.

(** The generator of [self.cmake_build_system]: from the discovered catalog,
    else from the legacy table. *)
Definition resolve_generator (h : Host) (name : string) : M string :=
  catalog <- build_systems h ;;
  if negb (Py.mem name (Dict.keys catalog))
  then lift (subscript legacy_build_systems name)
  else catalog' <- build_systems h ;; lift (subscript catalog' name).

(** [# assemble cmake command]: lines 184 to 209 of [build]. *)
Definition configure_command (h : Host) (self : Self) (found_exe : string)
    (install_path : string) (install : bool) (build_type : BuildType)
    : M (list string) :=
  let cmd := [found_exe; "-d"; working_dir self] in
  let cmd := cmd ++ cmake_args (settings self) in
  let cmd := cmd ++ Py.or_nil (build_args self) in
  let cmd := cmd ++ ["-DCMAKE_INSTALL_PREFIX=" ++ install_path]%string in
  let cmd := cmd ++ ["-DCMAKE_MODULE_PATH=" ++
               Py.replace (get_key_token h "CMAKE_MODULE_PATH") Py.backslash "/"]%string in
  let cmd := cmd ++ ["-DCMAKE_BUILD_TYPE=" ++ build_target self]%string in
  let cmd := cmd ++ ["-DREZ_BUILD_TYPE=" ++ BuildType_name build_type]%string in
  let cmd := cmd ++ ["-DREZ_BUILD_INSTALL=" ++ Py.fmt_d (if install then 1 else 0)]%string in
  cmd <- match cmake_build_system self with
         | Some (String _ _ as name) =>
             generator <- resolve_generator h name ;;
             ret (cmd ++ ["-G"; generator])
         | _ =>
             dflt <- default_build_system h ;;
             (if Py.truthy dflt
              then dflt' <- default_build_system h ;;
                   _pr self ("Using default Generator " ++ format_opt dflt')
              else ret tt) ;;;
             ret cmd
         end ;;
  ret (if (rez_1_cmake_variables h && negb (disable_rez_1_compatibility h)
           && BuildType_eqb build_type central)%bool
       then cmd ++ ["-DCENTRAL=1"]
       else cmd).

(** [# assemble make command]: lines 253 to 271 of [build]. *)
Definition make_command (self : Self) (found_exe build_path : string)
    (variant : Variant) : list string :=
  let cmd :=
    match make_binary (settings self) with
    | None | Some EmptyString => [found_exe; "--build"; build_path]
    | Some make_binary =>
        if negb (String.eqb make_binary "nmake") then
          [make_binary] ++
          (if negb (existsb (fun x => Py.startswith x "-j")
                            (Py.or_nil (child_build_args self)))
           then [("-j" ++ Py.fmt_d (build_thread_count variant))%string]
           else [])
        else []
    end in
  cmd ++ Py.or_nil (child_build_args self).

(** [all_cmd]: lines 273 to 278 of [build]. *)
Definition all_command (h : Host) (self : Self) (cmd : list string) : list string :=
  if negb (Py.truthy (make_binary (settings self))) then
    if String.eqb (platform_name h) "windows"
    then cmd ++ ["--target"; "ALL_BUILD"]
    else cmd ++ ["--target"; "all"]
  else cmd.

(** The command of the install phase: lines 288 to 290 of [build]. *)
Definition install_command (self : Self) (cmd : list string) : list string :=
  (if negb (Py.truthy (make_binary (settings self)))
   then cmd ++ ["--target"]
   else cmd) ++ ["install"].

Definition nonzero (retcode : Z) : bool := negb (Z.eqb retcode 0).

(** [build(self, context, variant, build_path, install_path, install,
    build_type)]. *)
Definition build (h : Host) (self : Self) (context : Context)
    (variant : Variant) (build_path install_path : string) (install : bool)
    (build_type : BuildType) : M BuildResult :=
  found_exe <- lift (_find_cmake h (Some context)) ;;
  cmd <- configure_command h self found_exe install_path install build_type ;;
  _pr self ("Executing: " ++ Py.join " " cmd) ;;;
  let build_path :=
    if String.eqb (abspath h build_path) EmptyString
    then realpath h (os_path_join h (working_dir self) build_path)
    else build_path in
  retcode <- execute_shell context cmd build_path ;;
  if nonzero retcode then
    ret {| success := false; build_env_script := None |}
  else if write_build_scripts self then
    let build_env_script := os_path_join h build_path "build-env" in
    emit (CreateForwardingScript build_env_script
            {| fwd_working_dir := working_dir self;
               fwd_build_path := build_path;
               fwd_variant_index := index variant;
               fwd_install := install;
               fwd_install_path := install_path |}) ;;;
    ret {| success := true; build_env_script := Some build_env_script |}
  else
    let cmd := make_command self found_exe build_path variant in
    let all_cmd := all_command h self cmd in
    _pr self (String Py.nl "Executing: " ++ Py.join " " cmd) ;;;
    retcode <- execute_shell context all_cmd build_path ;;
    if (negb (nonzero retcode) && install && negb (Py.mem "install" cmd))%bool then
      let cmd := install_command self cmd in
      _pr self (String Py.nl "Executing: " ++ Py.join " " cmd) ;;;
      retcode <- execute_shell context cmd build_path ;;
      ret {| success := negb (nonzero retcode); build_env_script := None |}
    else
      ret {| success := negb (nonzero retcode); build_env_script := None |}.

(** ** What the loops and the phases compute

    Functions that name, for the statements below, the lines the discovery
    loop captures, the traces the phases see and the fixed parts of the
    configure command. *)

(** [s.count(c)] for a one-character [c]. *)
Fixpoint count (c : ascii) (s : string) : nat :=
  match s with
  | EmptyString => O
  | String d rest => if Ascii.eqb d c then S (count c rest) else count c rest
  end.

(** The capture-eligible lines: those after the first line that starts with
    "Generators" which contain "=". *)
Fixpoint captured (ls : list string) (is_in_generators : bool) : list string :=
  match ls with
  | [] => []
  | line :: rest =>
      if is_in_generators then
        if Py.contains "=" line then line :: captured rest true
        else captured rest true
      else if Py.startswith line "Generators" then captured rest true
      else captured rest false
  end.

(** The name a well-formed line contributes, and whether it is marked. *)
Definition name_of (line : string) : string :=
  match parse_generator line with
  | Ok (name, _) => name
  | Raise _ => EmptyString
  end.

Definition marked (line : string) : bool :=
  match parse_generator line with
  | Ok (_, is_default) => is_default
  | Raise _ => false
  end.

(** The default after a run over captured lines: the last marked one wins. *)
Definition last_default (cap : list string) (init : option string) : option string :=
  fold_left (fun acc line => if marked line then Some (name_of line) else acc)
            cap init.

Definition with_default (st : Store) (d : option string) : Store :=
  {| _default_build_system := d;
     _build_systems := _build_systems st;
     trace := trace st |}.

Definition with_trace (st : Store) (tr : list event) : Store :=
  {| _default_build_system := _default_build_system st;
     _build_systems := _build_systems st;
     trace := tr |}.

(** The trace after [_pr(s)]. *)
Definition printed (self : Self) (s : string) (tr : list event) : list event :=
  if verbose self then tr ++ [Print s] else tr.

(** The return code of the configure phase: [cmd] is the configure command
    and [st1] the store once it is assembled. *)
Definition configure_history (self : Self) (cmd : list string) (st1 : Store)
    : list event :=
  printed self ("Executing: " ++ Py.join " " cmd) (trace st1).

Definition configure_retcode (context : Context) (self : Self)
    (cmd : list string) (build_path : string) (st1 : Store) : Z :=
  retcode_of context (configure_history self cmd st1) cmd build_path.

(** The return code of the build phase, which runs [all_cmd] after the
    configure phase. *)
Definition build_history (self : Self) (cmd mk : list string)
    (build_path : string) (st1 : Store) : list event :=
  printed self (String Py.nl "Executing: " ++ Py.join " " mk)
    (configure_history self cmd st1 ++ [ExecuteShell cmd build_path]).

Definition build_retcode (h : Host) (context : Context) (self : Self)
    (cmd mk : list string) (build_path : string) (st1 : Store) : Z :=
  retcode_of context (build_history self cmd mk build_path st1)
    (all_command h self mk) build_path.

(** The return code of the install phase, which runs after the build phase. *)
Definition install_history (h : Host) (self : Self) (cmd mk : list string)
    (build_path : string) (st1 : Store) : list event :=
  printed self (String Py.nl "Executing: " ++ Py.join " " (install_command self mk))
    (build_history self cmd mk build_path st1
       ++ [ExecuteShell (all_command h self mk) build_path]).

Definition install_retcode (h : Host) (context : Context) (self : Self)
    (cmd mk : list string) (build_path : string) (st1 : Store) : Z :=
  retcode_of context (install_history h self cmd mk build_path st1)
    (install_command self mk) build_path.

(** The five defines every configure command carries, in order. *)
Definition defines (h : Host) (self : Self) (install_path : string)
    (install : bool) (build_type : BuildType) : list string :=
  [("-DCMAKE_INSTALL_PREFIX=" ++ install_path)%string;
   ("-DCMAKE_MODULE_PATH=" ++
      Py.replace (get_key_token h "CMAKE_MODULE_PATH") Py.backslash "/")%string;
   ("-DCMAKE_BUILD_TYPE=" ++ build_target self)%string;
   ("-DREZ_BUILD_TYPE=" ++ BuildType_name build_type)%string;
   ("-DREZ_BUILD_INSTALL=" ++ (if install then "1" else "0"))%string].

(** The rez-1 compatibility define, present for central builds only. *)
Definition central_define (h : Host) (build_type : BuildType) : list string :=
  if (rez_1_cmake_variables h && negb (disable_rez_1_compatibility h)
      && BuildType_eqb build_type central)%bool
  then ["-DCENTRAL=1"]
  else [].


(** The [cmake --help] processes started so far: the commands handed to
    [popen]. *)
Fixpoint popens (tr : list event) : list (list string) :=
  match tr with
  | [] => []
  | Popen cmd :: rest => cmd :: popens rest
  | _ :: rest => popens rest
  end.

(** The working directories of the phases executed so far. *)
Fixpoint phase_cwds (tr : list event) : list string :=
  match tr with
  | [] => []
  | ExecuteShell _ cwd :: rest => cwd :: phase_cwds rest
  | _ :: rest => phase_cwds rest
  end.

(** The forwarding scripts written so far. *)
Fixpoint scripts (tr : list event) : list string :=
  match tr with
  | [] => []
  | CreateForwardingScript path _ :: rest => path :: scripts rest
  | _ :: rest => scripts rest
  end.

(** The events that start no phase and write no script. *)
Definition quiet (e : event) : bool :=
  match e with
  | Popen _ | Print _ => true
  | ExecuteShell _ _ | CreateForwardingScript _ _ => false
  end.

(** The first and the last character of a string. *)
Definition first_char (s : string) : option ascii :=
  match s with
  | EmptyString => None
  | String c _ => Some c
  end.

Fixpoint last_char (s : string) : option ascii :=
  match s with
  | EmptyString => None
  | String c EmptyString => Some c
  | String _ rest => last_char rest
  end.

(** The executable [_find_cmake] looks for: the configured binary when it
    is set, else what the context finds, else "cmake". *)
Definition wanted_exe (h : Host) (context : option Context) : option string :=
  if Py.truthy (config_cmake_binary h) then config_cmake_binary h
  else match context with
       | Some c => context_which c "cmake"
       | None => Some "cmake"
       end.

(** What assembling the configure command may add to the trace: events
    that start no phase, among them at most one [cmake --help], and none
    when the catalog is already cached. *)
Definition discovery_step (st st' : Store) : Prop :=
  exists added,
    trace st' = trace st ++ added /\
    forallb quiet added = true /\
    List.length (popens added) <= 1 /\
    (_build_systems st <> None -> popens added = []).

(** ** Concrete hosts, contexts and instances *)

(** Discovery as a function of the help text alone: [build_systems] in a
    fresh process whose [cmake --help] prints [help], returning the catalog
    and the default. *)
Definition host_printing (help : string) : Host := {|
  platform_name := "linux";
  config_cmake_binary := None;
  rez_1_cmake_variables := false;
  disable_rez_1_compatibility := false;
  which := fun exe => Some ("/usr/bin/" ++ exe)%string;
  popen_stdout := fun _ => help;
  get_key_token := fun k => ("${" ++ k ++ "}")%string;
  abspath := fun p => ("/" ++ p)%string;
  realpath := fun p => p;
  ntpath_join := fun a b => (a ++ String (Ascii.ascii_of_nat 92) b)%string;
  abspath_nonempty := fun p H => eq_ind ("/" ++ p)%string
    (fun s => match s with EmptyString => False | String _ _ => True end)
    I EmptyString H;
  ntpath_join_nonempty := ltac:(intros a b _ H; destruct a; discriminate H)
|}.

Definition discover (help : string) : result (Dict.t * option string) :=
  match (build_systems (host_printing help) ;;; default_build_system (host_printing help)) fresh with
  | (Ok dflt, st) =>
      match _build_systems st with
      | Some d => Ok (d, dflt)
      | None => Ok ([], dflt)
      end
  | (Raise e, _) => Raise e
  end.

Definition lines (ls : list string) : string := Py.join (String Py.nl EmptyString) ls.

(** The [n]-th phase of the process returns the [n]-th code of [codes], and
    0 once the list is exhausted. *)
Definition context_returning (codes : list Z) : Context := {|
  context_which := fun exe => Some exe;
  retcode_of := fun history _ _ => nth (List.length (phases history)) codes 0%Z
|}.

Definition self_with (s : Settings) (generator : option string)
    (scripts : bool) (child : option (list string)) : Self := {|
  working_dir := "/src/pkg";
  settings := s;
  build_target := s_build_target s;
  cmake_build_system := generator;
  write_build_scripts := scripts;
  verbose := false;
  build_args := Some [];
  child_build_args := child |}.

Definition variant0 : Variant := {| index := Some 0%Z; build_thread_count := 4 |}.

Definition cmake_help : string :=
  lines ["Usage"; EmptyString;
         "Generators"; EmptyString;
         "The following generators are available on this platform:";
         "* Unix Makefiles               = Generates standard UNIX makefiles.";
         "  Ninja                        = Generates build.ninja files.";
         "  Visual Studio 16 2019 [arch] = Generates VS project files.";
         "                                 Optional [arch] can be Win64."].

Definition wno_dev : Settings := {|
  s_build_system := None;
  s_build_target := "Release";
  cmake_args := ["-Wno-dev"];
  cmake_binary := None;
  make_binary := None;
  install_pyc := true
|}.

Definition generator_in_args : Settings := {|
  s_build_system := None;
  s_build_target := "Release";
  cmake_args := ["-G"; "Ninja"];
  cmake_binary := None;
  make_binary := None;
  install_pyc := true
|}.

Definition with_make_binary (mb : string) : Settings := {|
  s_build_system := None;
  s_build_target := "Release";
  cmake_args := ["-Wno-dev"];
  cmake_binary := None;
  make_binary := Some mb;
  install_pyc := true
|}.

(** A host with a given platform name, configured binary and help text, on
    which [which] finds every executable or none. *)
Definition host_custom (platform : string) (binary : option string)
    (installed : bool) (help : string) : Host := {|
  platform_name := platform;
  config_cmake_binary := binary;
  rez_1_cmake_variables := true;
  disable_rez_1_compatibility := false;
  which := fun exe => if installed then Some exe else None;
  popen_stdout := fun _ => help;
  get_key_token := fun k => ("%" ++ k ++ "%")%string;
  abspath := fun p => ("/" ++ p)%string;
  realpath := fun p => p;
  ntpath_join := fun a b => (a ++ String (Ascii.ascii_of_nat 92) b)%string;
  abspath_nonempty := fun p H => eq_ind ("/" ++ p)%string
    (fun s => match s with EmptyString => False | String _ _ => True end)
    I EmptyString H;
  ntpath_join_nonempty := ltac:(intros a b _ H; destruct a; discriminate H)
|}.

(** A help text with a line the unpacking cannot take. *)
Definition broken_help : string :=
  lines ["Generators";
         "* Unix Makefiles = Generates standard UNIX makefiles.";
         "  Ninja = Generates build.ninja files (default = off)."].

(** A help text that lists a generator under a legacy alias name. *)
Definition shadowing_help : string :=
  lines ["Generators"; "  make = A generator called like the alias."].

(** ** Runs on concrete inputs *)

Example split_lines : Py.split Py.nl ("a" ++ String Py.nl "b") = ["a"; "b"].
Proof. reflexivity. Qed.

Example split_eq3 : Py.split "=" "A = b = c" = ["A "; " b "; " c"].
Proof. reflexivity. Qed.

Example replace_arch :
  Py.replace "VS 16 [arch] x[arch]" "[arch]" EmptyString = "VS 16  x".
Proof. reflexivity. Qed.

Example strip_spaces : Py.strip "  a b  " = "a b".
Proof. reflexivity. Qed.

Example fmt_d_neg : Py.fmt_d (-12) = "-12".
Proof. reflexivity. Qed.

Example discover_ninja :
  discover (lines ["Generators"; "* Ninja = Generates ninja files."])
  = Ok ([("Ninja", "Ninja")], Some "Ninja").
Proof. reflexivity. Qed.

Example discover_two_equals :
  discover (lines ["Generators"; "A = b = c"]) = Raise ValueError.
Proof. reflexivity. Qed.

Example discover_cmake_help :
  discover cmake_help
  = Ok ([("Unix Makefiles", "Unix Makefiles"); ("Ninja", "Ninja");
         ("Visual Studio 16 2019", "Visual Studio 16 2019")],
        Some "Unix Makefiles").
Proof. reflexivity. Qed.

Example build_default_run :
  let r := build (host_printing cmake_help) (self_with rezconfig None false None)
             (context_returning []) variant0 "/b" "/a/b" true local fresh in
  fst r = Ok {| success := true; build_env_script := None |} /\
  phases (trace (snd r)) =
    [["/usr/bin/cmake"; "-d"; "/src/pkg"; "-Wno-dev";
      "-DCMAKE_ECLIPSE_GENERATE_SOURCE_PROJECT=TRUE"; "-D_ECLIPSE_VERSION=4.3";
      "--no-warn-unused-cli"; "-DCMAKE_INSTALL_PREFIX=/a/b";
      "-DCMAKE_MODULE_PATH=${CMAKE_MODULE_PATH}"; "-DCMAKE_BUILD_TYPE=Release";
      "-DREZ_BUILD_TYPE=local"; "-DREZ_BUILD_INSTALL=1"];
     ["/usr/bin/cmake"; "--build"; "/b"; "--target"; "all"];
     ["/usr/bin/cmake"; "--build"; "/b"; "--target"; "install"]].
Proof. vm_compute. split; reflexivity. Qed.

(** ** Discovery: what the loop of [build_systems] computes *)

Section Discovery.

Lemma split_length (c : ascii) (s : string) :
  List.length (Py.split c s) = S (count c s).
Proof.
  induction s as [|d rest IH]; simpl; [reflexivity|].
  destruct (Ascii.eqb d c); simpl.
  - now rewrite IH.
  - destruct (Py.split c rest) as [|piece pieces]; simpl in *; lia.
Qed.

Lemma contains_count (c : ascii) (s : string) :
  Py.contains c s = true <-> 1 <= count c s.
Proof.
  induction s as [|d rest IH]; simpl.
  - split; [discriminate | lia].
  - destruct (Ascii.eqb d c); simpl; [split; [lia | reflexivity] | exact IH].
Qed.

(** The unpacking succeeds exactly on the lines with a single "=". *)
Lemma parse_generator_ok (line : string) :
  count "=" line = 1 ->
  exists name is_default, parse_generator line = Ok (name, is_default).
Proof.
  intros H. unfold parse_generator.
  pose proof (split_length "=" line) as L. rewrite H in L.
  destruct (Py.split "=" line) as [|a [|b [|c t]]]; simpl in L; try lia.
  eauto.
Qed.

Lemma parse_generator_raises (line : string) :
  count "=" line <> 1 -> parse_generator line = Raise ValueError.
Proof.
  intros H. unfold parse_generator.
  pose proof (split_length "=" line) as L.
  destruct (Py.split "=" line) as [|a [|b [|c t]]]; simpl in L; try reflexivity.
  exfalso. apply H. lia.
Qed.

Lemma captured_contains (ls : list string) (b : bool) (line : string) :
  In line (captured ls b) -> Py.contains "=" line = true.
Proof.
  revert b. induction ls as [|l rest IH]; intros b; simpl; [tauto|].
  destruct b.
  - destruct (Py.contains "=" l) eqn:E; simpl.
    + intros [<-|H]; [exact E | eauto].
    + eauto.
  - destruct (Py.startswith l "Generators"); eauto.
Qed.

(** The loop touches neither the trace nor the cached catalog. *)
Lemma scan_inert (ls : list string) :
  forall b g st r st',
    scan ls b g st = (r, st') ->
    trace st' = trace st /\ _build_systems st' = _build_systems st.
Proof.
  induction ls as [|l rest IH]; intros b g st r st'; simpl.
  - unfold ret. intros [= _ <-]. auto.
  - destruct b.
    + destruct (Py.contains "=" l).
      * unfold bind, lift.
        destruct (parse_generator l) as [[name dflt]|e]; simpl.
        -- destruct dflt; simpl; intros H; apply IH in H; simpl in H; exact H.
        -- intros [= _ <-]. auto.
      * apply IH.
    + destruct (Py.startswith l "Generators"); apply IH.
Qed.

(** On lines with a single "=" each, the loop returns the names of the
    captured lines in order and leaves the last marked name as default. *)
Lemma scan_ok (ls : list string) :
  forall b g st,
    Forall (fun line => count "=" line <= 1) (captured ls b) ->
    scan ls b g st =
      (Ok (g ++ map name_of (captured ls b)),
       with_default st (last_default (captured ls b) (_default_build_system st))).
Proof.
  induction ls as [|l rest IH]; intros b g st HF; simpl.
  - rewrite app_nil_r. destruct st; reflexivity.
  - simpl in HF. destruct b.
    + destruct (Py.contains "=" l) eqn:E.
      * inversion HF as [|? ? H1 H2]; subst.
        apply contains_count in E.
        destruct (parse_generator_ok l) as (name & dflt & P); [lia|].
        unfold bind, lift. rewrite P. simpl.
        unfold last_default, marked, name_of. simpl. rewrite P.
        destruct dflt; simpl; rewrite IH by assumption; simpl;
          rewrite <- app_assoc; reflexivity.
      * apply IH, HF.
    + destruct (Py.startswith l "Generators"); apply IH, HF.
Qed.

(** A captured line with more than one "=" makes the loop raise. *)
Lemma scan_raises (ls : list string) :
  forall b g st,
    Exists (fun line => 1 < count "=" line) (captured ls b) ->
    exists st', scan ls b g st = (Raise ValueError, st').
Proof.
  induction ls as [|l rest IH]; intros b g st HE; simpl in *.
  - inversion HE.
  - destruct b.
    + destruct (Py.contains "=" l) eqn:E.
      * unfold bind, lift.
        destruct (Nat.eq_dec (count "=" l) 1) as [C|C].
        -- destruct (parse_generator_ok l C) as (name & dflt & P). rewrite P.
           inversion HE as [? ? H|? ? H]; subst; [lia|].
           simpl. destruct dflt; simpl; apply IH, H.
        -- rewrite (parse_generator_raises l C). eauto.
      * apply IH, HE.
    + destruct (Py.startswith l "Generators"); apply IH, HE.
Qed.

End Discovery.

(** ** The catalog dictionary *)

Section Catalog.

Lemma setitem_keys (k v x : string) (d : Dict.t) :
  In x (Dict.keys (Dict.setitem k v d)) <-> x = k \/ In x (Dict.keys d).
Proof.
  induction d as [|[k' v'] rest IH]; simpl.
  - intuition congruence.
  - destruct (String.eqb k k') eqn:E; simpl.
    + apply String.eqb_eq in E. subst. intuition congruence.
    + rewrite IH. intuition congruence.
Qed.

Lemma setitem_not_nil (k v : string) (d : Dict.t) : Dict.setitem k v d <> [].
Proof.
  destruct d as [|[k' v'] rest]; simpl; [discriminate|].
  destruct (String.eqb k k'); discriminate.
Qed.

Lemma mirrored_keys (g : list string) :
  forall (d : Dict.t) (x : string),
    In x (Dict.keys (fold_left (fun d kv => Dict.setitem (fst kv) (snd kv) d)
                               (combine g g) d))
    <-> In x g \/ In x (Dict.keys d).
Proof.
  induction g as [|n rest IH]; intros d x; simpl; [tauto|].
  rewrite IH, setitem_keys. intuition congruence.
Qed.

Lemma mirrored_nonempty (g : list string) :
  forall d : Dict.t,
    d <> [] ->
    fold_left (fun d kv => Dict.setitem (fst kv) (snd kv) d) (combine g g) d <> [].
Proof.
  induction g as [|n rest IH]; intros d H; simpl; [exact H|].
  apply IH, setitem_not_nil.
Qed.

(** The keys of [dict(zip(generators, generators))] are the generators. *)
Lemma catalog_keys (g : list string) (x : string) :
  In x (Dict.keys (Dict.of_pairs (combine g g))) <-> In x g.
Proof.
  unfold Dict.of_pairs. rewrite mirrored_keys. simpl. tauto.
Qed.

Lemma catalog_empty (g : list string) :
  Dict.of_pairs (combine g g) = [] <-> g = [].
Proof.
  split.
  - destruct g as [|n rest]; [reflexivity|]. unfold Dict.of_pairs. simpl.
    intros H. exfalso. revert H. apply mirrored_nonempty. discriminate.
  - intros ->. reflexivity.
Qed.

Lemma mem_In (x : string) (xs : list string) :
  Py.mem x xs = true <-> In x xs.
Proof.
  unfold Py.mem. rewrite existsb_exists. split.
  - intros (y & Hy & E). apply String.eqb_eq in E. now subst.
  - intros H. exists x. split; [exact H | apply String.eqb_refl].
Qed.

End Catalog.

(** ** [build_systems]: caching and effects *)

Section BuildSystems.

Variable h : Host.

Lemma phases_app (a b : list event) : phases (a ++ b) = phases a ++ phases b.
Proof.
  induction a as [|e rest IH]; simpl; [reflexivity|].
  destruct e; simpl; now rewrite IH.
Qed.

(** Once the catalog is cached, [build_systems] returns it and does
    nothing else. *)
Lemma build_systems_cached (st : Store) (d : Dict.t) :
  _build_systems st = Some d -> build_systems h st = (Ok d, st).
Proof.
  intros H. unfold build_systems, bind, get_store. now rewrite H.
Qed.

(** A successful call leaves the catalog cached. *)
Lemma build_systems_caches (st st' : Store) (d : Dict.t) :
  build_systems h st = (Ok d, st') -> _build_systems st' = Some d.
Proof.
  unfold build_systems, bind, get_store, lift, emit, set_build_systems, ret.
  destruct (_build_systems st) as [d0|] eqn:E.
  - intros [= <- <-]. exact E.
  - destruct (_find_cmake h None) as [exe|e]; [|discriminate].
    destruct (scan _ _ _ _) as [[g|e] st1]; [|discriminate].
    intros [= <- <-]. reflexivity.
Qed.

(** Discovery starts no phase, whether it returns or raises. *)
Lemma build_systems_phases (st st' : Store) (r : result Dict.t) :
  build_systems h st = (r, st') -> phases (trace st') = phases (trace st).
Proof.
  unfold build_systems, bind, get_store, lift, emit, set_build_systems, ret.
  destruct (_build_systems st) as [d0|].
  - intros [= _ <-]. reflexivity.
  - destruct (_find_cmake h None) as [exe|e].
    + destruct (scan _ _ _ _) as [[g|e] st1] eqn:S;
        apply scan_inert in S; destruct S as [T _]; simpl in T;
        intros [= _ <-]; simpl; rewrite T, phases_app; simpl;
        apply app_nil_r.
    + intros [= _ <-]. reflexivity.
Qed.

(** The first call, on a help text whose captured lines have a single "="
    each: the catalog mirrors the parsed names and the default is the last
    marked name. *)
Lemma build_systems_discovers (st : Store) (exe : string) :
  _find_cmake h None = Ok exe ->
  _build_systems st = None ->
  let cap := captured (Py.split Py.nl (popen_stdout h [exe; "--help"])) false in
  Forall (fun line => count "=" line <= 1) cap ->
  let d := Dict.of_pairs (combine (map name_of cap) (map name_of cap)) in
  build_systems h st =
    (Ok d, {| _default_build_system := last_default cap (_default_build_system st);
              _build_systems := Some d;
              trace := trace st ++ [Popen [exe; "--help"]] |}).
Proof.
  intros F C cap HF d.
  unfold build_systems, bind, get_store, lift, emit. rewrite C, F.
  rewrite scan_ok by exact HF. reflexivity.
Qed.

Lemma default_build_system_phases (st st' : Store) (r : result (option string)) :
  default_build_system h st = (r, st') -> phases (trace st') = phases (trace st).
Proof.
  unfold default_build_system, bind, get_store, ret.
  destruct (build_systems h st) as [[d|e] st1] eqn:B;
    apply build_systems_phases in B; intros [= _ <-]; exact B.
Qed.

Lemma default_build_system_cached (st : Store) (d : Dict.t) :
  _build_systems st = Some d ->
  default_build_system h st = (Ok (_default_build_system st), st).
Proof.
  intros H. unfold default_build_system, bind, get_store, ret.
  now rewrite (build_systems_cached st d H).
Qed.

End BuildSystems.

(** ** The pipeline of [build], phase by phase *)

Section Pipeline.

Variable h : Host.
Variable self : Self.

Lemma with_trace_same (st : Store) : with_trace st (trace st) = st.
Proof. destruct st; reflexivity. Qed.

Lemma _pr_run (s : string) (st : Store) :
  _pr self s st = (Ok tt, with_trace st (printed self s (trace st))).
Proof.
  unfold _pr, printed. destruct (verbose self).
  - reflexivity.
  - unfold ret. now rewrite with_trace_same.
Qed.

Lemma printed_phases (s : string) (tr : list event) :
  phases (printed self s tr) = phases tr.
Proof.
  unfold printed. destruct (verbose self); [|reflexivity].
  rewrite phases_app. simpl. apply app_nil_r.
Qed.

Lemma execute_shell_run (context : Context) (cmd : list string) (cwd : string)
    (st : Store) :
  execute_shell context cmd cwd st =
    (Ok (retcode_of context (trace st) cmd cwd),
     with_trace st (trace st ++ [ExecuteShell cmd cwd])).
Proof. reflexivity. Qed.

(** The [if not os.path.abspath(build_path)] branch is dead. *)
Lemma abspath_truthy (p : string) : String.eqb (abspath h p) EmptyString = false.
Proof. apply String.eqb_neq, abspath_nonempty. Qed.

Lemma resolve_generator_phases (name : string) (st st' : Store) (r : result string) :
  resolve_generator h name st = (r, st') -> phases (trace st') = phases (trace st).
Proof.
  unfold resolve_generator, bind, lift.
  destruct (build_systems h st) as [[d|e] st1] eqn:B.
  - pose proof (build_systems_phases h _ _ _ B) as P1.
    destruct (negb _).
    + intros [= _ <-]; exact P1.
    + unfold bind.
      rewrite (build_systems_cached h st1 d (build_systems_caches h _ _ _ B)).
      intros [= _ <-]; exact P1.
  - intros [= _ <-]. exact (build_systems_phases h _ _ _ B).
Qed.

(** Assembling the configure command starts no phase. *)
Lemma configure_command_phases (exe install_path : string) (install : bool)
    (build_type : BuildType) (st st' : Store) (r : result (list string)) :
  configure_command h self exe install_path install build_type st = (r, st') ->
  phases (trace st') = phases (trace st).
Proof.
  unfold configure_command, bind, ret.
  destruct (cmake_build_system self) as [[|c name]|].
  2:{ destruct (resolve_generator h _ st) as [[g|e] st1] eqn:R;
        intros [= _ <-]; exact (resolve_generator_phases _ _ _ _ R). }
  all: destruct (default_build_system h st) as [[dflt|e] st1] eqn:D;
    pose proof (default_build_system_phases h _ _ _ D) as P1;
    [|intros [= _ <-]; exact P1];
    destruct (Py.truthy dflt);
    [|intros [= _ <-]; exact P1];
    destruct (default_build_system h st1) as [[dflt'|e] st2] eqn:D';
    pose proof (default_build_system_phases h _ _ _ D') as P2;
    [|intros [= _ <-]; congruence];
    rewrite _pr_run; intros [= _ <-]; simpl;
    rewrite printed_phases; congruence.
Qed.

(** [build], once the tool is found and the configure command assembled. *)
Lemma build_run (context : Context) (variant : Variant)
    (build_path install_path : string) (install : bool) (build_type : BuildType)
    (st st1 : Store) (exe : string) (cmd : list string) :
  _find_cmake h (Some context) = Ok exe ->
  configure_command h self exe install_path install build_type st = (Ok cmd, st1) ->
  let mk := make_command self exe build_path variant in
  let rc0 := configure_retcode context self cmd build_path st1 in
  let rc1 := build_retcode h context self cmd mk build_path st1 in
  let rc2 := install_retcode h context self cmd mk build_path st1 in
  let t1 := configure_history self cmd st1 ++ [ExecuteShell cmd build_path] in
  let t2 := build_history self cmd mk build_path st1
              ++ [ExecuteShell (all_command h self mk) build_path] in
  let t3 := install_history h self cmd mk build_path st1
              ++ [ExecuteShell (install_command self mk) build_path] in
  build h self context variant build_path install_path install build_type st =
    if nonzero rc0 then
      (Ok {| success := false; build_env_script := None |}, with_trace st1 t1)
    else if write_build_scripts self then
      (Ok {| success := true;
             build_env_script := Some (os_path_join h build_path "build-env") |},
       with_trace st1
         (t1 ++ [CreateForwardingScript (os_path_join h build_path "build-env")
                   {| fwd_working_dir := working_dir self;
                      fwd_build_path := build_path;
                      fwd_variant_index := index variant;
                      fwd_install := install;
                      fwd_install_path := install_path |}]))
    else if (negb (nonzero rc1) && install && negb (Py.mem "install" mk))%bool then
      (Ok {| success := negb (nonzero rc2); build_env_script := None |},
       with_trace st1 t3)
    else
      (Ok {| success := negb (nonzero rc1); build_env_script := None |},
       with_trace st1 t2).
Proof.
  intros F C. cbv zeta.
  unfold configure_retcode, build_retcode, install_retcode,
    install_history, build_history, configure_history.
  unfold build. unfold bind at 1. unfold lift. rewrite F.
  unfold bind at 1. rewrite C.
  unfold bind at 1. rewrite _pr_run.
  rewrite abspath_truthy.
  unfold bind at 1. rewrite execute_shell_run.
  cbn [trace with_trace].
  match goal with |- context [nonzero ?rc] => destruct (nonzero rc) end;
    [reflexivity|].
  destruct (write_build_scripts self); [reflexivity|].
  unfold bind at 1. rewrite _pr_run.
  unfold bind at 1. rewrite execute_shell_run.
  cbn [trace with_trace].
  match goal with |- context [(negb (nonzero ?rc) && install && ?m)%bool] =>
    destruct (negb (nonzero rc) && install && m)%bool end;
    [|reflexivity].
  unfold bind at 1. rewrite _pr_run.
  unfold bind at 1. rewrite execute_shell_run.
  reflexivity.
Qed.

End Pipeline.

(** ** Claims about discovery *)

Lemma last_default_unmarked (after : list string) (acc : option string) :
  Forall (fun line => marked line = false) after ->
  last_default after acc = acc.
Proof.
  revert acc. induction after as [|l rest IH]; intros acc HF; [reflexivity|].
  inversion HF as [|? ? H1 H2]; subst. unfold last_default in *. simpl.
  rewrite H1. apply IH, H2.
Qed.

Lemma last_default_last_marked (before after : list string) (line : string)
    (init : option string) :
  marked line = true ->
  Forall (fun l => marked l = false) after ->
  last_default (before ++ line :: after) init = Some (name_of line).
Proof.
  intros Hm Ha. unfold last_default. rewrite fold_left_app. simpl. rewrite Hm.
  apply (last_default_unmarked after _ Ha).
Qed.

(** C1, at a concrete help text: a captured line with two "=" makes
    [build_systems] raise [ValueError] instead of returning a catalog. *)
Lemma C1_counterexample :
  fst (build_systems (host_printing (lines ["Generators"; "A = b = c"])) fresh)
  = Raise ValueError.
Proof. reflexivity. Qed.

(** C1, amended: for every help text in which no capture-eligible line has
    more than one "=", the first call of [build_systems] returns a catalog
    and does not raise; the catalog is empty exactly when no line follows a
    "Generators" heading and contains "=", and then the default stays
    absent. *)
Theorem C1_discovery_returns_on_single_equals (h : Host) (exe : string)
    (st : Store) :
  _find_cmake h None = Ok exe ->
  _build_systems st = None ->
  _default_build_system st = None ->
  Forall (fun line => count "=" line <= 1)
         (captured (Py.split Py.nl (popen_stdout h [exe; "--help"])) false) ->
  exists d st',
    build_systems h st = (Ok d, st') /\
    _build_systems st' = Some d /\
    (d = [] <-> captured (Py.split Py.nl (popen_stdout h [exe; "--help"])) false = []) /\
    (captured (Py.split Py.nl (popen_stdout h [exe; "--help"])) false = [] ->
     _default_build_system st' = None).
Proof.
  intros F C D HF.
  pose proof (build_systems_discovers h st exe F C HF) as B. cbv zeta in B.
  eexists. eexists. split; [exact B|]. split; [reflexivity|]. split.
  - rewrite catalog_empty. split.
    + apply map_eq_nil.
    + intros ->. reflexivity.
  - intros E. simpl. rewrite E, D. reflexivity.
Qed.

Lemma C1_discovery_returns_on_single_equals_witness :
  exists d st',
    build_systems (host_printing cmake_help) fresh = (Ok d, st') /\
    _build_systems st' = Some d /\
    (d = [] <->
     captured (Py.split Py.nl
                 (popen_stdout (host_printing cmake_help) ["/usr/bin/cmake"; "--help"]))
              false = []) /\
    (captured (Py.split Py.nl
                 (popen_stdout (host_printing cmake_help) ["/usr/bin/cmake"; "--help"]))
              false = [] ->
     _default_build_system st' = None).
Proof.
  apply (C1_discovery_returns_on_single_equals
           (host_printing cmake_help) "/usr/bin/cmake" fresh).
  - reflexivity.
  - reflexivity.
  - reflexivity.
  - vm_compute. repeat constructor.
Defined.

(** C7: on well-formed lines discovery parses as documented.  The line
    "* Ninja = Generates ninja files." parses to the name "Ninja" with the
    default marker, and after a "Generators" heading yields the default
    "Ninja" and a catalog containing "Ninja"; the line
    "Visual Studio 16 2019 [arch] = Generates VS project files." parses to
    exactly "Visual Studio 16 2019"; every captured line puts its name in the
    catalog; and when several lines carry the marker "* ", the default is the
    name of the last of them. *)
Theorem C7_discovery_parses_generator_lines (h : Host) (exe : string)
    (st : Store) :
  _find_cmake h None = Ok exe ->
  _build_systems st = None ->
  Forall (fun line => count "=" line <= 1)
         (captured (Py.split Py.nl (popen_stdout h [exe; "--help"])) false) ->
  exists d st',
    build_systems h st = (Ok d, st') /\
    (forall line,
        In line (captured (Py.split Py.nl (popen_stdout h [exe; "--help"])) false) ->
        In (name_of line) (Dict.keys d)) /\
    (forall before line after,
        captured (Py.split Py.nl (popen_stdout h [exe; "--help"])) false
          = before ++ line :: after ->
        marked line = true ->
        Forall (fun l => marked l = false) after ->
        default_build_system h st' = (Ok (Some (name_of line)), st')) /\
    parse_generator "* Ninja = Generates ninja files." = Ok ("Ninja", true) /\
    discover (lines ["Generators"; "* Ninja = Generates ninja files."])
      = Ok ([("Ninja", "Ninja")], Some "Ninja") /\
    parse_generator "Visual Studio 16 2019 [arch] = Generates VS project files."
      = Ok ("Visual Studio 16 2019", false) /\
    discover (lines ["Generators"; "* Unix Makefiles = Generates makefiles.";
                     "* Ninja = Generates ninja files."])
      = Ok ([("Unix Makefiles", "Unix Makefiles"); ("Ninja", "Ninja")], Some "Ninja").
Proof.
  intros F C HF.
  pose proof (build_systems_discovers h st exe F C HF) as B. cbv zeta in B.
  eexists. eexists. split; [exact B|].
  split; [|split; [|repeat split; reflexivity]].
  - intros line Hin. apply catalog_keys, in_map, Hin.
  - intros before line after E Hm Ha.
    erewrite default_build_system_cached by reflexivity.
    simpl. rewrite E. now rewrite (last_default_last_marked before after line _ Hm Ha).
Qed.

Lemma C7_discovery_parses_generator_lines_witness :
  default_build_system (host_printing cmake_help)
    (snd (build_systems (host_printing cmake_help) fresh))
  = (Ok (Some "Unix Makefiles"), snd (build_systems (host_printing cmake_help) fresh)).
Proof.
  destruct (C7_discovery_parses_generator_lines
              (host_printing cmake_help) "/usr/bin/cmake" fresh)
    as (d & st' & B & _ & L & _).
  - reflexivity.
  - reflexivity.
  - vm_compute. repeat constructor.
  - rewrite B. simpl.
    apply (L [] "* Unix Makefiles               = Generates standard UNIX makefiles."
             ["  Ninja                        = Generates build.ninja files.";
              "  Visual Studio 16 2019 [arch] = Generates VS project files."]).
    + reflexivity.
    + reflexivity.
    + repeat constructor.
Defined.

(** ** Claims about the pipeline *)

Lemma bind_ok {A B} (m : M A) (k : A -> M B) (st st' : Store) (a : A) :
  m st = (Ok a, st') -> bind m k st = k a st'.
Proof. intros H. unfold bind. now rewrite H. Qed.

Lemma bind_raise {A B} (m : M A) (k : A -> M B) (st st' : Store) (e : exn) :
  m st = (Raise e, st') -> bind m k st = (Raise e, st').
Proof. intros H. unfold bind. now rewrite H. Qed.

Lemma legacy_get_keys (name : string) :
  ~ In name (Dict.keys legacy_build_systems) ->
  Dict.get name legacy_build_systems = None.
Proof.
  intros HL. destruct (Dict.get name legacy_build_systems) as [v|] eqn:G;
    [|reflexivity].
  exfalso. apply HL. clear -G. simpl in G.
  repeat match type of G with
         | (if String.eqb ?a ?b then _ else _) = _ =>
             destruct (String.eqb a b) eqn:E;
             [apply String.eqb_eq in E; rewrite E; simpl; tauto | clear E]
         end.
  discriminate.
Qed.

Lemma nonzero_true (rc : Z) : rc <> 0%Z -> nonzero rc = true.
Proof. intros H. unfold nonzero. now apply Z.eqb_neq in H as ->. Qed.

Lemma nonzero_false (rc : Z) : rc = 0%Z -> nonzero rc = false.
Proof. intros ->. reflexivity. Qed.

Lemma append_not_empty (a b : string) : b <> EmptyString -> (a ++ b)%string <> EmptyString.
Proof.
  intros H E. induction a as [|c a IH]; simpl in E; [now apply H | discriminate E].
Qed.

(** C2: when the configure phase returns a nonzero code, [build] returns
    [success = False] without raising, and the configure command is the only
    phase executed: no build and no install command runs. *)
Theorem C2_configure_failure_stops_pipeline (h : Host) (self : Self)
    (context : Context) (variant : Variant) (build_path install_path : string)
    (install : bool) (build_type : BuildType) (st st1 : Store) (exe : string)
    (cmd : list string) :
  _find_cmake h (Some context) = Ok exe ->
  configure_command h self exe install_path install build_type st = (Ok cmd, st1) ->
  configure_retcode context self cmd build_path st1 <> 0%Z ->
  exists st2,
    build h self context variant build_path install_path install build_type st
      = (Ok {| success := false; build_env_script := None |}, st2) /\
    phases (trace st2) = phases (trace st) ++ [cmd].
Proof.
  intros F C R.
  rewrite (build_run h self context variant build_path install_path install
             build_type st st1 exe cmd F C).
  rewrite (nonzero_true _ R).
  eexists. split; [reflexivity|]. simpl.
  unfold configure_history. rewrite phases_app, printed_phases.
  now rewrite (configure_command_phases h self _ _ _ _ _ _ _ C).
Qed.

Lemma C2_configure_failure_stops_pipeline_witness :
  exists st2,
    build (host_printing cmake_help) (self_with rezconfig None false None)
      (context_returning [2%Z]) variant0 "/b" "/a/b" true local fresh
      = (Ok {| success := false; build_env_script := None |}, st2) /\
    phases (trace st2) =
      phases (trace fresh) ++
      [["/usr/bin/cmake"; "-d"; "/src/pkg"; "-Wno-dev";
        "-DCMAKE_ECLIPSE_GENERATE_SOURCE_PROJECT=TRUE"; "-D_ECLIPSE_VERSION=4.3";
        "--no-warn-unused-cli"; "-DCMAKE_INSTALL_PREFIX=/a/b";
        "-DCMAKE_MODULE_PATH=${CMAKE_MODULE_PATH}"; "-DCMAKE_BUILD_TYPE=Release";
        "-DREZ_BUILD_TYPE=local"; "-DREZ_BUILD_INSTALL=1"]].
Proof.
  eapply (C2_configure_failure_stops_pipeline (host_printing cmake_help)
            (self_with rezconfig None false None) (context_returning [2%Z])
            variant0 "/b" "/a/b" true local fresh).
  - reflexivity.
  - vm_compute. reflexivity.
  - vm_compute. discriminate.
Defined.

(** A selected (non-empty) generator name that is neither a key of the
    discovered catalog nor a key of [legacy_build_systems] makes [build]
    raise the [KeyError] of the subscript [legacy_build_systems[name]], which
    carries the selected name, and no phase has been executed. *)
Lemma unknown_generator_raises_KeyError (h : Host) (self : Self)
    (context : Context) (variant : Variant) (build_path install_path : string)
    (install : bool) (build_type : BuildType) (st st1 : Store) (exe name : string)
    (catalog : Dict.t) :
  _find_cmake h (Some context) = Ok exe ->
  cmake_build_system self = Some name ->
  name <> EmptyString ->
  build_systems h st = (Ok catalog, st1) ->
  ~ In name (Dict.keys catalog) ->
  ~ In name (Dict.keys legacy_build_systems) ->
  build h self context variant build_path install_path install build_type st
    = (Raise (KeyError name), st1) /\
  phases (trace st1) = phases (trace st).
Proof.
  intros F S N B HC HL. split; [|exact (build_systems_phases h _ _ _ B)].
  unfold build. rewrite (bind_ok _ _ st st exe) by (unfold lift; now rewrite F).
  apply bind_raise. unfold configure_command. rewrite S.
  destruct name as [|c name]; [now elim N|].
  apply bind_raise, bind_raise. unfold resolve_generator.
  rewrite (bind_ok _ _ _ _ _ B).
  destruct (Py.mem (String c name) (Dict.keys catalog)) eqn:M.
  - apply mem_In in M. now elim HC.
  - simpl negb. cbv iota. unfold lift, subscript.
    now rewrite (legacy_get_keys _ HL).
Qed.

(** C4, at the generator "Borland Makefiles", which cmake's help does not
    list and the legacy table does not know: [build] fails before any phase
    executes, but with the bare [KeyError] of the dictionary subscript, not
    with a [RezCMakeError] as the tool lookup and the constructor raise. *)
Theorem C4_unknown_generator_raises_bare_KeyError :
  build (host_printing cmake_help)
    (self_with rezconfig (Some "Borland Makefiles") false None)
    (context_returning []) variant0 "/b" "/a/b" true local fresh
    = (Raise (KeyError "Borland Makefiles"),
       snd (build_systems (host_printing cmake_help) fresh)) /\
  phases (trace (snd (build_systems (host_printing cmake_help) fresh))) = [] /\
  forall msg,
    fst (build (host_printing cmake_help)
           (self_with rezconfig (Some "Borland Makefiles") false None)
           (context_returning []) variant0 "/b" "/a/b" true local fresh)
    <> Raise (RezCMakeError msg).
Proof.
  destruct (unknown_generator_raises_KeyError (host_printing cmake_help)
              (self_with rezconfig (Some "Borland Makefiles") false None)
              (context_returning []) variant0 "/b" "/a/b" true local fresh
              (snd (build_systems (host_printing cmake_help) fresh))
              "/usr/bin/cmake" "Borland Makefiles"
              [("Unix Makefiles", "Unix Makefiles"); ("Ninja", "Ninja");
               ("Visual Studio 16 2019", "Visual Studio 16 2019")]) as [B P].
  - reflexivity.
  - reflexivity.
  - discriminate.
  - vm_compute. reflexivity.
  - simpl. intros H. repeat (destruct H as [H|H]; [discriminate H|]). exact H.
  - simpl. intros H. repeat (destruct H as [H|H]; [discriminate H|]). exact H.
  - split; [exact B|]. split; [exact P|].
    intros msg. rewrite B. discriminate.
Qed.

Lemma posixpath_join_build_env (build_path : string) :
  posixpath_join build_path "build-env" <> EmptyString /\
  (build_path <> EmptyString ->
   String.eqb (Py.drop (String.length build_path - 1) build_path) "/" = false ->
   posixpath_join build_path "build-env" = (build_path ++ "/build-env")%string).
Proof.
  unfold posixpath_join. simpl Py.startswith. cbv iota. split.
  - destruct (_ || _)%bool; apply append_not_empty; discriminate.
  - intros NE NS. rewrite NS. apply String.eqb_neq in NE. rewrite NE. reflexivity.
Qed.

(** C6: with [write_build_scripts] set and a configure phase that returns 0,
    [build] writes the forwarding script, returns [success = True] with the
    script path [os.path.join(build_path, "build-env")], which is never
    empty, and executes no build and no install phase.  The path is the
    host's join of [build_path] and "build-env": [posixpath.join] on every
    host but windows, where it reads [<build_path>/build-env], and
    [ntpath.join] on windows. *)
Theorem C6_write_build_scripts_defers (h : Host) (self : Self)
    (context : Context) (variant : Variant) (build_path install_path : string)
    (install : bool) (build_type : BuildType) (st st1 : Store) (exe : string)
    (cmd : list string) :
  _find_cmake h (Some context) = Ok exe ->
  configure_command h self exe install_path install build_type st = (Ok cmd, st1) ->
  write_build_scripts self = true ->
  configure_retcode context self cmd build_path st1 = 0%Z ->
  exists st2 script,
    build h self context variant build_path install_path install build_type st
      = (Ok {| success := true; build_env_script := Some script |}, st2) /\
    phases (trace st2) = phases (trace st) ++ [cmd] /\
    script = os_path_join h build_path "build-env" /\
    script <> EmptyString /\
    (platform_name h <> "windows" ->
     script = posixpath_join build_path "build-env" /\
     (build_path <> EmptyString ->
      String.eqb (Py.drop (String.length build_path - 1) build_path) "/" = false ->
      script = (build_path ++ "/build-env")%string)) /\
    (platform_name h = "windows" ->
     script = ntpath_join h build_path "build-env") /\
    In (CreateForwardingScript script
          {| fwd_working_dir := working_dir self;
             fwd_build_path := build_path;
             fwd_variant_index := index variant;
             fwd_install := install;
             fwd_install_path := install_path |}) (trace st2).
Proof.
  intros F C W R.
  rewrite (build_run h self context variant build_path install_path install
             build_type st st1 exe cmd F C).
  rewrite (nonzero_false _ R), W.
  eexists. eexists. split; [reflexivity|]. simpl trace.
  destruct (posixpath_join_build_env build_path) as [PN PS].
  split; [|split; [reflexivity|split; [|split; [|split]]]].
  - unfold configure_history. rewrite !phases_app, printed_phases. simpl.
    rewrite (configure_command_phases h self _ _ _ _ _ _ _ C).
    now rewrite app_nil_r.
  - unfold os_path_join. destruct (String.eqb (platform_name h) "windows").
    + apply ntpath_join_nonempty. discriminate.
    + exact PN.
  - intros NW. unfold os_path_join. apply String.eqb_neq in NW. rewrite NW.
    split; [reflexivity | exact PS].
  - intros YW. unfold os_path_join. apply String.eqb_eq in YW. now rewrite YW.
  - apply in_or_app. right. left. reflexivity.
Qed.

Lemma C6_write_build_scripts_defers_witness :
  exists st2 script,
    build (host_printing cmake_help) (self_with rezconfig None true None)
      (context_returning []) variant0 "/b" "/a/b" true local fresh
      = (Ok {| success := true; build_env_script := Some script |}, st2) /\
    phases (trace st2) =
      phases (trace fresh) ++
      [["/usr/bin/cmake"; "-d"; "/src/pkg"; "-Wno-dev";
        "-DCMAKE_ECLIPSE_GENERATE_SOURCE_PROJECT=TRUE"; "-D_ECLIPSE_VERSION=4.3";
        "--no-warn-unused-cli"; "-DCMAKE_INSTALL_PREFIX=/a/b";
        "-DCMAKE_MODULE_PATH=${CMAKE_MODULE_PATH}"; "-DCMAKE_BUILD_TYPE=Release";
        "-DREZ_BUILD_TYPE=local"; "-DREZ_BUILD_INSTALL=1"]] /\
    script = os_path_join (host_printing cmake_help) "/b" "build-env" /\
    script <> EmptyString /\
    (platform_name (host_printing cmake_help) <> "windows" ->
     script = posixpath_join "/b" "build-env" /\
     ("/b" <> EmptyString ->
      String.eqb (Py.drop (String.length "/b" - 1) "/b") "/" = false ->
      script = ("/b" ++ "/build-env")%string)) /\
    (platform_name (host_printing cmake_help) = "windows" ->
     script = ntpath_join (host_printing cmake_help) "/b" "build-env") /\
    In (CreateForwardingScript script
          {| fwd_working_dir := "/src/pkg";
             fwd_build_path := "/b";
             fwd_variant_index := Some 0%Z;
             fwd_install := true;
             fwd_install_path := "/a/b" |}) (trace st2).
Proof.
  eapply (C6_write_build_scripts_defers (host_printing cmake_help)
            (self_with rezconfig None true None) (context_returning [])
            variant0 "/b" "/a/b" true local fresh).
  - reflexivity.
  - vm_compute. reflexivity.
  - reflexivity.
  - vm_compute. reflexivity.
Defined.

Section Configure.

Variable h : Host.
Variable self : Self.
Variables (exe install_path : string) (install : bool) (build_type : BuildType).

Lemma fmt_d_install : Py.fmt_d (if install then 1 else 0) = if install then "1" else "0".
Proof. destruct install; reflexivity. Qed.

(** A resolved generator comes from the catalog when the name is one of
    its keys, and from the legacy table otherwise. *)
Lemma resolve_generator_ok (name generator : string) (st st1 : Store) :
  resolve_generator h name st = (Ok generator, st1) ->
  exists catalog,
    _build_systems st1 = Some catalog /\
    (if Py.mem name (Dict.keys catalog)
     then Dict.get name catalog = Some generator
     else Dict.get name legacy_build_systems = Some generator).
Proof.
  unfold resolve_generator. unfold bind at 1.
  destruct (build_systems h st) as [[catalog|e] st0] eqn:B; [|discriminate].
  pose proof (build_systems_caches h _ _ _ B) as K.
  destruct (Py.mem name (Dict.keys catalog)) eqn:M; cbn [negb].
  - rewrite (bind_ok _ _ _ _ _ (build_systems_cached h st0 catalog K)).
    unfold lift, subscript.
    destruct (Dict.get name catalog) as [g|] eqn:G; [|discriminate].
    intros [= <- <-]. exists catalog. rewrite M. auto.
  - unfold lift, subscript.
    destruct (Dict.get name legacy_build_systems) as [g|] eqn:G; [|discriminate].
    intros [= <- <-]. exists catalog. rewrite M. auto.
Qed.

(** With a generator selected, the command ends in [-G] and the generator
    the catalog or the legacy table gives, then the compatibility define. *)
Lemma configure_command_selected (name : string) (st st1 : Store)
    (cmd : list string) :
  cmake_build_system self = Some name ->
  name <> EmptyString ->
  configure_command h self exe install_path install build_type st = (Ok cmd, st1) ->
  exists generator catalog,
    _build_systems st1 = Some catalog /\
    (if Py.mem name (Dict.keys catalog)
     then Dict.get name catalog = Some generator
     else Dict.get name legacy_build_systems = Some generator) /\
    cmd = [exe; "-d"; working_dir self] ++ cmake_args (settings self)
          ++ Py.or_nil (build_args self)
          ++ defines h self install_path install build_type
          ++ ["-G"; generator] ++ central_define h build_type.
Proof.
  intros S N. unfold configure_command. rewrite S.
  destruct name as [|c name]; [now elim N|].
  unfold bind.
  destruct (resolve_generator h (String c name) st) as [[g|e] st0] eqn:R;
    [|discriminate].
  unfold ret. intros [= <- <-].
  destruct (resolve_generator_ok _ _ _ _ R) as (catalog & K & G).
  exists g, catalog. split; [exact K|]. split; [exact G|].
  unfold defines, central_define. rewrite fmt_d_install.
  destruct (_ && _ && _)%bool; repeat rewrite <- app_assoc; reflexivity.
Qed.

(** With no generator selected, nothing stands between the five defines
    and the compatibility define. *)
Lemma configure_command_unselected (st st1 : Store) (cmd : list string) :
  Py.truthy (cmake_build_system self) = false ->
  configure_command h self exe install_path install build_type st = (Ok cmd, st1) ->
  cmd = [exe; "-d"; working_dir self] ++ cmake_args (settings self)
        ++ Py.or_nil (build_args self)
        ++ defines h self install_path install build_type
        ++ central_define h build_type.
Proof.
  intros T. unfold configure_command.
  assert (E : forall (X : Type) (a : string -> X) (b : X),
             match cmake_build_system self with
             | Some (String _ _ as name) => a name
             | _ => b
             end = b).
  { intros X a b. destruct (cmake_build_system self) as [[|c n]|];
      try reflexivity. discriminate T. }
  rewrite E. unfold bind at 1, bind at 1, bind at 1.
  destruct (default_build_system h st) as [[dflt|e] st0]; [|discriminate].
  destruct (Py.truthy dflt).
  - unfold bind at 1.
    destruct (default_build_system h st0) as [[dflt'|e] st0']; [|discriminate].
    rewrite _pr_run. unfold ret. intros [= <- <-].
    unfold defines, central_define. rewrite fmt_d_install.
    destruct (_ && _ && _)%bool; repeat rewrite <- app_assoc; reflexivity.
  - unfold ret. intros [= <- <-].
    unfold defines, central_define. rewrite fmt_d_install.
    destruct (_ && _ && _)%bool; repeat rewrite <- app_assoc; reflexivity.
Qed.

(** With no generator selected, the command is assembled whenever
    discovery returns. *)
Lemma configure_command_unselected_returns (st st0 : Store) (catalog : Dict.t) :
  Py.truthy (cmake_build_system self) = false ->
  build_systems h st = (Ok catalog, st0) ->
  exists cmd st1,
    configure_command h self exe install_path install build_type st = (Ok cmd, st1).
Proof.
  intros T B. unfold configure_command.
  assert (E : forall (X : Type) (a : string -> X) (b : X),
             match cmake_build_system self with
             | Some (String _ _ as name) => a name
             | _ => b
             end = b).
  { intros X a b. destruct (cmake_build_system self) as [[|c n]|];
      try reflexivity. discriminate T. }
  rewrite E. unfold bind at 1, bind at 1, bind at 1.
  pose proof (build_systems_caches h _ _ _ B) as K.
  assert (D : default_build_system h st = (Ok (_default_build_system st0), st0)).
  { unfold default_build_system, bind, get_store, ret. now rewrite B. }
  rewrite D.
  destruct (Py.truthy (_default_build_system st0)).
  - unfold bind at 1. rewrite (default_build_system_cached h st0 catalog K).
    rewrite _pr_run. unfold ret. eauto.
  - unfold ret. eauto.
Qed.

End Configure.

Lemma replace_backslash_step (c : ascii) (rest : string) :
  Py.replace_from Py.backslash "/" 0 (String c rest) =
    String (if Ascii.eqb c (Ascii.ascii_of_nat 92) then "/"%char else c)
           (Py.replace_from Py.backslash "/" 0 rest).
Proof.
  unfold Py.backslash. cbn [Py.replace_from String.prefix].
  destruct (ascii_dec _ c) as [E|N].
  - subst c. destruct rest; reflexivity.
  - destruct (Ascii.eqb c (Ascii.ascii_of_nat 92)) eqn:E; [|reflexivity].
    apply Ascii.eqb_eq in E. subst c. now elim N.
Qed.

Lemma replace_backslash (s : string) :
  Py.contains (Ascii.ascii_of_nat 92) (Py.replace s Py.backslash "/") = false /\
  String.length (Py.replace s Py.backslash "/") = String.length s.
Proof.
  unfold Py.replace. induction s as [|c rest [IH1 IH2]]; [split; reflexivity|].
  rewrite replace_backslash_step. cbn [Py.contains String.length].
  rewrite IH1, IH2. split; [|reflexivity].
  destruct (Ascii.eqb c (Ascii.ascii_of_nat 92)) eqn:E; [reflexivity|].
  now rewrite E.
Qed.






(** C9, at a concrete input: with no generator selected and
    [cmake_args = ["-G", "Ninja"]] the configure command contains "-G". *)
Lemma C9_counterexample :
  fst (configure_command (host_printing cmake_help)
         (self_with generator_in_args None false None)
         "/usr/bin/cmake" "/a/b" false local fresh)
  = Ok ["/usr/bin/cmake"; "-d"; "/src/pkg"; "-G"; "Ninja";
        "-DCMAKE_INSTALL_PREFIX=/a/b";
        "-DCMAKE_MODULE_PATH=${CMAKE_MODULE_PATH}";
        "-DCMAKE_BUILD_TYPE=Release"; "-DREZ_BUILD_TYPE=local";
        "-DREZ_BUILD_INSTALL=0"] /\
  cmake_build_system (self_with generator_in_args None false None) = None /\
  In "-G" ["/usr/bin/cmake"; "-d"; "/src/pkg"; "-G"; "Ninja";
           "-DCMAKE_INSTALL_PREFIX=/a/b";
           "-DCMAKE_MODULE_PATH=${CMAKE_MODULE_PATH}";
           "-DCMAKE_BUILD_TYPE=Release"; "-DREZ_BUILD_TYPE=local";
           "-DREZ_BUILD_INSTALL=0"].
Proof.
  split; [vm_compute; reflexivity|]. split; [reflexivity|].
  simpl. tauto.
Qed.

(** C9, amended: when no generator is selected ([cmake_build_system] is
    [None] or empty) and discovery returns, the configure command is
    assembled and the assembler adds no [-G] flag to it, whatever default
    was discovered: the command is the tool path, [-d], the working
    directory, [cmake_args], the extra build args, the five defines and the
    compatibility define, so it contains "-G" only where the tool path, the
    working directory, [cmake_args] or the extra build args are "-G". *)
Theorem C9_no_generator_flag_added (h : Host) (self : Self)
    (exe install_path : string) (install : bool) (build_type : BuildType)
    (st st0 : Store) (catalog : Dict.t) :
  Py.truthy (cmake_build_system self) = false ->
  build_systems h st = (Ok catalog, st0) ->
  exists cmd st1,
    configure_command h self exe install_path install build_type st = (Ok cmd, st1) /\
    cmd = [exe; "-d"; working_dir self] ++ cmake_args (settings self)
          ++ Py.or_nil (build_args self)
          ++ defines h self install_path install build_type
          ++ central_define h build_type /\
    (In "-G" cmd <->
     In "-G" (exe :: working_dir self :: cmake_args (settings self)
                ++ Py.or_nil (build_args self))).
Proof.
  intros T B.
  destruct (configure_command_unselected_returns h self exe install_path install
              build_type st st0 catalog T B) as (cmd & st1 & C).
  pose proof (configure_command_unselected h self _ _ _ _ _ _ _ T C) as E.
  exists cmd, st1. split; [exact C|]. split; [exact E|].
  rewrite E. cbn [app In]. rewrite !in_app_iff.
  assert (ND : ~ In "-G" (defines h self install_path install build_type)).
  { unfold defines. simpl. intros I.
    repeat (destruct I as [I|I]; [discriminate I|]). exact I. }
  assert (NC : ~ In "-G" (central_define h build_type)).
  { unfold central_define. destruct (_ && _ && _)%bool; simpl; [|tauto].
    intros [I|I]; [discriminate I | exact I]. }
  split.
  - intros [I|[I|[I|[I|[I|[I|I]]]]]]; try tauto. discriminate I.
  - tauto.
Qed.

Lemma C9_no_generator_flag_added_witness :
  exists cmd st1,
    configure_command (host_printing cmake_help)
      (self_with rezconfig None false None) "/usr/bin/cmake" "/a/b" true local fresh
      = (Ok cmd, st1) /\
    cmd = ["/usr/bin/cmake"; "-d"; "/src/pkg"] ++ cmake_args rezconfig
          ++ Py.or_nil (Some [])
          ++ defines (host_printing cmake_help) (self_with rezconfig None false None)
               "/a/b" true local
          ++ central_define (host_printing cmake_help) local /\
    (In "-G" cmd <->
     In "-G" ("/usr/bin/cmake" :: "/src/pkg" :: cmake_args rezconfig
                ++ Py.or_nil (Some []))).
Proof.
  eapply (C9_no_generator_flag_added (host_printing cmake_help)
            (self_with rezconfig None false None) "/usr/bin/cmake" "/a/b" true
            local fresh).
  - reflexivity.
  - vm_compute. reflexivity.
Defined.

(** The pipeline after a configure phase that returned 0, without
    [write_build_scripts]: the build phase runs [all_cmd], the install phase
    follows when the build phase returned 0, install is requested and [cmd]
    does not contain "install", and the result reports the last phase. *)
Lemma build_make_run (h : Host) (self : Self) (context : Context)
    (variant : Variant) (build_path install_path : string) (install : bool)
    (build_type : BuildType) (st st1 : Store) (exe : string) (cmd : list string) :
  _find_cmake h (Some context) = Ok exe ->
  configure_command h self exe install_path install build_type st = (Ok cmd, st1) ->
  configure_retcode context self cmd build_path st1 = 0%Z ->
  write_build_scripts self = false ->
  let mk := make_command self exe build_path variant in
  let rc1 := build_retcode h context self cmd mk build_path st1 in
  let rc2 := install_retcode h context self cmd mk build_path st1 in
  let installs := (Z.eqb rc1 0 && install && negb (Py.mem "install" mk))%bool in
  exists st2,
    build h self context variant build_path install_path install build_type st
      = (Ok {| success := Z.eqb (if installs then rc2 else rc1) 0;
               build_env_script := None |}, st2) /\
    phases (trace st2) =
      phases (trace st) ++ cmd :: all_command h self mk
        :: (if installs then [install_command self mk] else []).
Proof.
  intros F C R W. cbv zeta.
  rewrite (build_run h self context variant build_path install_path install
             build_type st st1 exe cmd F C).
  rewrite (nonzero_false _ R), W.
  pose proof (configure_command_phases h self _ _ _ _ _ _ _ C) as P.
  unfold nonzero. rewrite !negb_involutive.
  destruct (_ && _ && _)%bool;
    eexists; (split; [reflexivity|]); simpl trace;
    unfold install_history, build_history, configure_history;
    repeat (rewrite ?phases_app, ?printed_phases); simpl phases;
    rewrite P, <- ?app_assoc; simpl; reflexivity.
Qed.

(** C5: with a [make_binary] that is set and is not "nmake", the build
    command is [make_binary], then the single flag [-j<N>] for the
    configured thread count exactly when no child build arg starts with
    "-j", then the child build args verbatim; nothing is appended for the
    build phase, and [build] runs this command right after the configure
    phase. *)
Theorem C5_make_binary_command (h : Host) (self : Self) (context : Context)
    (variant : Variant) (build_path install_path : string) (install : bool)
    (build_type : BuildType) (st st1 : Store) (exe mb : string)
    (cmd : list string) :
  make_binary (settings self) = Some mb ->
  mb <> EmptyString ->
  mb <> "nmake" ->
  (make_command self exe build_path variant =
     [mb]
     ++ (if existsb (fun x => Py.startswith x "-j") (Py.or_nil (child_build_args self))
         then []
         else [("-j" ++ Py.fmt_d (build_thread_count variant))%string])
     ++ Py.or_nil (child_build_args self)) /\
  all_command h self (make_command self exe build_path variant)
    = make_command self exe build_path variant /\
  (_find_cmake h (Some context) = Ok exe ->
   configure_command h self exe install_path install build_type st = (Ok cmd, st1) ->
   configure_retcode context self cmd build_path st1 = 0%Z ->
   write_build_scripts self = false ->
   exists r st2 later,
     build h self context variant build_path install_path install build_type st
       = (Ok r, st2) /\
     phases (trace st2) =
       phases (trace st) ++ cmd
         :: ([mb]
             ++ (if existsb (fun x => Py.startswith x "-j")
                            (Py.or_nil (child_build_args self))
                 then []
                 else [("-j" ++ Py.fmt_d (build_thread_count variant))%string])
             ++ Py.or_nil (child_build_args self))
         :: later).
Proof.
  intros B N1 N2.
  assert (A : all_command h self (make_command self exe build_path variant)
              = make_command self exe build_path variant).
  { unfold all_command. rewrite B. destruct mb; [now elim N1 | reflexivity]. }
  assert (K : make_command self exe build_path variant =
     [mb]
     ++ (if existsb (fun x => Py.startswith x "-j") (Py.or_nil (child_build_args self))
         then []
         else [("-j" ++ Py.fmt_d (build_thread_count variant))%string])
     ++ Py.or_nil (child_build_args self)).
  { unfold make_command. rewrite B. destruct mb as [|c mb]; [now elim N1|].
    apply String.eqb_neq in N2. rewrite N2. cbn [negb].
    destruct (existsb _ _); reflexivity. }
  split; [exact K|]. split; [exact A|].
  intros F C R W.
  destruct (build_make_run h self context variant build_path install_path install
              build_type st st1 exe cmd F C R W) as (st2 & E & P).
  rewrite A, K in P. eauto.
Qed.

Lemma C5_make_binary_command_witness :
  make_command (self_with (with_make_binary "make") None false (Some ["-j8"]))
    "/usr/bin/cmake" "/b" variant0
  = ["make"; "-j8"] /\
  exists r st2 later,
    build (host_printing cmake_help)
      (self_with (with_make_binary "make") None false (Some ["VERBOSE=1"]))
      (context_returning []) variant0 "/b" "/a/b" false local fresh
      = (Ok r, st2) /\
    phases (trace st2) =
      phases (trace fresh)
      ++ ["/usr/bin/cmake"; "-d"; "/src/pkg"; "-Wno-dev";
          "-DCMAKE_INSTALL_PREFIX=/a/b";
          "-DCMAKE_MODULE_PATH=${CMAKE_MODULE_PATH}";
          "-DCMAKE_BUILD_TYPE=Release"; "-DREZ_BUILD_TYPE=local";
          "-DREZ_BUILD_INSTALL=0"]
         :: ["make"; "-j4"; "VERBOSE=1"] :: later.
Proof.
  split.
  - refine (proj1 (C5_make_binary_command (host_printing cmake_help)
      (self_with (with_make_binary "make") None false (Some ["-j8"]))
      (context_returning []) variant0 "/b" "/a/b" true local fresh fresh
      "/usr/bin/cmake" "make" [] _ _ _)).
    + reflexivity.
    + discriminate.
    + discriminate.
  - refine (proj2 (proj2 (C5_make_binary_command (host_printing cmake_help)
      (self_with (with_make_binary "make") None false (Some ["VERBOSE=1"]))
      (context_returning []) variant0 "/b" "/a/b" false local fresh
      (snd (build_systems (host_printing cmake_help) fresh))
      "/usr/bin/cmake" "make"
      ["/usr/bin/cmake"; "-d"; "/src/pkg"; "-Wno-dev";
       "-DCMAKE_INSTALL_PREFIX=/a/b";
       "-DCMAKE_MODULE_PATH=${CMAKE_MODULE_PATH}";
       "-DCMAKE_BUILD_TYPE=Release"; "-DREZ_BUILD_TYPE=local";
       "-DREZ_BUILD_INSTALL=0"] _ _ _)) _ _ _ _).
    + reflexivity.
    + discriminate.
    + discriminate.
    + reflexivity.
    + vm_compute. reflexivity.
    + vm_compute. reflexivity.
    + reflexivity.
Defined.

(** C10: with [make_binary] equal to "nmake" the build command holds no
    executable: it is exactly the child build args (empty when there are
    none), without a make binary in front, without a thread-count flag and
    without a [--target] suffix, and [build] runs it right after the
    configure phase. *)
Theorem C10_nmake_command_is_child_args (h : Host) (self : Self)
    (context : Context) (variant : Variant) (build_path install_path : string)
    (install : bool) (build_type : BuildType) (st st1 : Store) (exe : string)
    (cmd : list string) :
  make_binary (settings self) = Some "nmake" ->
  make_command self exe build_path variant = Py.or_nil (child_build_args self) /\
  all_command h self (make_command self exe build_path variant)
    = Py.or_nil (child_build_args self) /\
  (child_build_args self = None \/ child_build_args self = Some [] ->
   all_command h self (make_command self exe build_path variant) = []) /\
  (_find_cmake h (Some context) = Ok exe ->
   configure_command h self exe install_path install build_type st = (Ok cmd, st1) ->
   configure_retcode context self cmd build_path st1 = 0%Z ->
   write_build_scripts self = false ->
   exists r st2 later,
     build h self context variant build_path install_path install build_type st
       = (Ok r, st2) /\
     phases (trace st2) =
       phases (trace st) ++ cmd :: Py.or_nil (child_build_args self) :: later).
Proof.
  intros B.
  assert (K : make_command self exe build_path variant
              = Py.or_nil (child_build_args self)).
  { unfold make_command. rewrite B. reflexivity. }
  assert (A : all_command h self (make_command self exe build_path variant)
              = Py.or_nil (child_build_args self)).
  { unfold all_command. rewrite B, K. reflexivity. }
  split; [exact K|]. split; [exact A|]. split.
  - rewrite A. intros [-> | ->]; reflexivity.
  - intros F C R W.
    destruct (build_make_run h self context variant build_path install_path install
                build_type st st1 exe cmd F C R W) as (st2 & E & P).
    rewrite A in P. eauto.
Qed.

Lemma C10_nmake_command_is_child_args_witness :
  exists r st2 later,
    build (host_printing cmake_help)
      (self_with (with_make_binary "nmake") None false (Some ["/NOLOGO"]))
      (context_returning []) variant0 "/b" "/a/b" false local fresh
      = (Ok r, st2) /\
    phases (trace st2) =
      phases (trace fresh)
      ++ ["/usr/bin/cmake"; "-d"; "/src/pkg"; "-Wno-dev";
          "-DCMAKE_INSTALL_PREFIX=/a/b";
          "-DCMAKE_MODULE_PATH=${CMAKE_MODULE_PATH}";
          "-DCMAKE_BUILD_TYPE=Release"; "-DREZ_BUILD_TYPE=local";
          "-DREZ_BUILD_INSTALL=0"]
         :: ["/NOLOGO"] :: later.
Proof.
  refine (proj2 (proj2 (proj2 (C10_nmake_command_is_child_args
    (host_printing cmake_help)
    (self_with (with_make_binary "nmake") None false (Some ["/NOLOGO"]))
    (context_returning []) variant0 "/b" "/a/b" false local fresh
    (snd (build_systems (host_printing cmake_help) fresh))
    "/usr/bin/cmake"
    ["/usr/bin/cmake"; "-d"; "/src/pkg"; "-Wno-dev";
     "-DCMAKE_INSTALL_PREFIX=/a/b";
     "-DCMAKE_MODULE_PATH=${CMAKE_MODULE_PATH}";
     "-DCMAKE_BUILD_TYPE=Release"; "-DREZ_BUILD_TYPE=local";
     "-DREZ_BUILD_INSTALL=0"] _))) _ _ _ _).
  - reflexivity.
  - reflexivity.
  - vm_compute. reflexivity.
  - vm_compute. reflexivity.
  - reflexivity.
Defined.

Lemma mem_app (x : string) (a b : list string) :
  Py.mem x (a ++ b) = (Py.mem x a || Py.mem x b)%bool.
Proof. unfold Py.mem. apply existsb_app. Qed.

(** C8: after the build phase, the install phase runs exactly when the
    build phase returned 0, install was requested and the build command
    does not contain the argument "install"; the install command is the
    build command followed by [--target install] when no make binary is set
    and by [install] otherwise; and the result's [success] says whether the
    last executed phase returned 0. *)
Theorem C8_install_phase (h : Host) (self : Self) (context : Context)
    (variant : Variant) (build_path install_path : string) (install : bool)
    (build_type : BuildType) (st st1 : Store) (exe : string) (cmd : list string) :
  _find_cmake h (Some context) = Ok exe ->
  configure_command h self exe install_path install build_type st = (Ok cmd, st1) ->
  configure_retcode context self cmd build_path st1 = 0%Z ->
  write_build_scripts self = false ->
  let mk := make_command self exe build_path variant in
  let rc1 := build_retcode h context self cmd mk build_path st1 in
  let rc2 := install_retcode h context self cmd mk build_path st1 in
  let installs := (Z.eqb rc1 0 && install && negb (Py.mem "install" mk))%bool in
  (exists st2,
     build h self context variant build_path install_path install build_type st
       = (Ok {| success := Z.eqb (if installs then rc2 else rc1) 0;
                build_env_script := None |}, st2) /\
     phases (trace st2) =
       phases (trace st) ++ cmd :: all_command h self mk
         :: (if installs then [install_command self mk] else [])) /\
  install_command self mk =
    mk ++ (if Py.truthy (make_binary (settings self))
           then ["install"] else ["--target"; "install"]) /\
  Py.mem "install" (all_command h self mk) = Py.mem "install" mk.
Proof.
  intros F C R W. cbv zeta. split; [|split].
  - exact (build_make_run h self context variant build_path install_path install
             build_type st st1 exe cmd F C R W).
  - unfold install_command. destruct (Py.truthy _); cbn [negb];
      [reflexivity | now rewrite <- app_assoc].
  - unfold all_command. destruct (Py.truthy _); cbn [negb]; [reflexivity|].
    destruct (String.eqb _ _); rewrite mem_app; simpl; apply orb_false_r.
Qed.

Lemma C8_install_phase_witness :
  exists st2,
    build (host_printing cmake_help) (self_with rezconfig None false None)
      (context_returning [0%Z; 0%Z; 3%Z]) variant0 "/b" "/a/b" true local fresh
      = (Ok {| success := false; build_env_script := None |}, st2) /\
    phases (trace st2) =
      [["/usr/bin/cmake"; "-d"; "/src/pkg"; "-Wno-dev";
        "-DCMAKE_ECLIPSE_GENERATE_SOURCE_PROJECT=TRUE"; "-D_ECLIPSE_VERSION=4.3";
        "--no-warn-unused-cli"; "-DCMAKE_INSTALL_PREFIX=/a/b";
        "-DCMAKE_MODULE_PATH=${CMAKE_MODULE_PATH}"; "-DCMAKE_BUILD_TYPE=Release";
        "-DREZ_BUILD_TYPE=local"; "-DREZ_BUILD_INSTALL=1"];
       ["/usr/bin/cmake"; "--build"; "/b"; "--target"; "all"];
       ["/usr/bin/cmake"; "--build"; "/b"; "--target"; "install"]].
Proof.
  refine (proj1 (C8_install_phase (host_printing cmake_help)
    (self_with rezconfig None false None) (context_returning [0%Z; 0%Z; 3%Z])
    variant0 "/b" "/a/b" true local fresh
    (snd (build_systems (host_printing cmake_help) fresh))
    "/usr/bin/cmake"
    ["/usr/bin/cmake"; "-d"; "/src/pkg"; "-Wno-dev";
     "-DCMAKE_ECLIPSE_GENERATE_SOURCE_PROJECT=TRUE"; "-D_ECLIPSE_VERSION=4.3";
     "--no-warn-unused-cli"; "-DCMAKE_INSTALL_PREFIX=/a/b";
     "-DCMAKE_MODULE_PATH=${CMAKE_MODULE_PATH}"; "-DCMAKE_BUILD_TYPE=Release";
     "-DREZ_BUILD_TYPE=local"; "-DREZ_BUILD_INSTALL=1"] _ _ _ _)).
  - reflexivity.
  - vm_compute. reflexivity.
  - vm_compute. reflexivity.
  - reflexivity.
Defined.

(** ** The tool lookup *)

Lemma wanted_exe_find (h : Host) (context : option Context) :
  _find_cmake h context =
    match wanted_exe h context with
    | None | Some EmptyString => Raise (RezCMakeError "could not find cmake binary")
    | Some exe =>
        match which h exe with
        | None | Some EmptyString =>
            Raise (RezCMakeError ("cmake binary does not exist: " ++ exe))
        | Some found_exe => Ok found_exe
        end
    end.
Proof. reflexivity. Qed.

(** [_find_cmake] only returns a non-empty path that [which] found for a
    non-empty executable name: the configured binary, else the one the
    context finds, else "cmake". *)
Theorem X1_find_cmake_returns_checked_path (h : Host) (context : option Context)
    (found_exe : string) :
  _find_cmake h context = Ok found_exe ->
  found_exe <> EmptyString /\
  exists exe,
    wanted_exe h context = Some exe /\ exe <> EmptyString /\
    which h exe = Some found_exe.
Proof.
  rewrite wanted_exe_find.
  destruct (wanted_exe h context) as [[|c exe]|]; try discriminate.
  destruct (which h (String c exe)) as [[|d p]|] eqn:W; try discriminate.
  intros [= <-]. split; [discriminate|].
  exists (String c exe). repeat split; [discriminate | exact W].
Qed.

Lemma X1_find_cmake_returns_checked_path_witness :
  "/usr/bin/cmake" <> EmptyString /\
  exists exe,
    wanted_exe (host_printing cmake_help) (Some (context_returning [])) = Some exe /\
    exe <> EmptyString /\
    which (host_printing cmake_help) exe = Some "/usr/bin/cmake".
Proof.
  apply (X1_find_cmake_returns_checked_path (host_printing cmake_help)
           (Some (context_returning [])) "/usr/bin/cmake").
  reflexivity.
Defined.

(** A configured [cmake_binary] takes precedence: the context is not
    consulted, so the lookup gives the same outcome with any context and
    with none. *)
Theorem X2_configured_binary_ignores_context (h : Host)
    (context context' : option Context) :
  Py.truthy (config_cmake_binary h) = true ->
  _find_cmake h context = _find_cmake h context'.
Proof.
  intros T. rewrite !wanted_exe_find. unfold wanted_exe. now rewrite T.
Qed.

(** Every failure of [_find_cmake] is a [RezCMakeError]: "could not find
    cmake binary" exactly when there is no executable name to look for, and
    "cmake binary does not exist" with that name when [which] does not find
    it. *)
Theorem X3_find_cmake_failures (h : Host) (context : option Context) (e : exn) :
  _find_cmake h context = Raise e ->
  (e = RezCMakeError "could not find cmake binary" /\
   Py.truthy (wanted_exe h context) = false) \/
  (exists exe,
     wanted_exe h context = Some exe /\ exe <> EmptyString /\
     Py.truthy (which h exe) = false /\
     e = RezCMakeError ("cmake binary does not exist: " ++ exe)).
Proof.
  rewrite wanted_exe_find.
  destruct (wanted_exe h context) as [[|c exe]|].
  - intros [= <-]. left. auto.
  - destruct (which h (String c exe)) as [[|d p]|] eqn:W; try discriminate;
      intros [= <-]; right; exists (String c exe); rewrite W;
      repeat split; discriminate.
  - intros [= <-]. left. auto.
Qed.

Lemma X2_configured_binary_ignores_context_witness :
  _find_cmake (host_custom "linux" (Some "/opt/cmake") true cmake_help)
    (Some (context_returning []))
  = _find_cmake (host_custom "linux" (Some "/opt/cmake") true cmake_help) None.
Proof.
  apply (X2_configured_binary_ignores_context
           (host_custom "linux" (Some "/opt/cmake") true cmake_help)
           (Some (context_returning [])) None).
  reflexivity.
Defined.

Lemma X3_find_cmake_failures_witness :
  (RezCMakeError "cmake binary does not exist: cmake"
     = RezCMakeError "could not find cmake binary" /\
   Py.truthy (wanted_exe (host_custom "linux" None false cmake_help) None) = false) \/
  (exists exe,
     wanted_exe (host_custom "linux" None false cmake_help) None = Some exe /\
     exe <> EmptyString /\
     Py.truthy (which (host_custom "linux" None false cmake_help) exe) = false /\
     RezCMakeError "cmake binary does not exist: cmake"
       = RezCMakeError ("cmake binary does not exist: " ++ exe)).
Proof.
  apply (X3_find_cmake_failures (host_custom "linux" None false cmake_help) None
           (RezCMakeError "cmake binary does not exist: cmake")).
  reflexivity.
Defined.

(** ** Discovery: caching, failure and the shape of the catalog *)

(** Discovery runs once: after a call of [build_systems] that returned,
    every further call of [build_systems] and of [default_build_system]
    returns the cached values and leaves the store, its trace included,
    untouched. *)
Theorem X5_discovery_is_cached (h : Host) (st st1 : Store) (catalog : Dict.t) :
  build_systems h st = (Ok catalog, st1) ->
  build_systems h st1 = (Ok catalog, st1) /\
  default_build_system h st1 = (Ok (_default_build_system st1), st1).
Proof.
  intros B. pose proof (build_systems_caches h _ _ _ B) as K. split.
  - exact (build_systems_cached h st1 catalog K).
  - exact (default_build_system_cached h st1 catalog K).
Qed.

Lemma X5_discovery_is_cached_witness :
  build_systems (host_printing cmake_help)
    (snd (build_systems (host_printing cmake_help) fresh))
  = (Ok [("Unix Makefiles", "Unix Makefiles"); ("Ninja", "Ninja");
         ("Visual Studio 16 2019", "Visual Studio 16 2019")],
     snd (build_systems (host_printing cmake_help) fresh)) /\
  default_build_system (host_printing cmake_help)
    (snd (build_systems (host_printing cmake_help) fresh))
  = (Ok (_default_build_system (snd (build_systems (host_printing cmake_help) fresh))),
     snd (build_systems (host_printing cmake_help) fresh)).
Proof.
  apply (X5_discovery_is_cached (host_printing cmake_help) fresh).
  vm_compute. reflexivity.
Defined.

(** A failed discovery is not cached: when a captured line has more than
    one "=", [build_systems] raises [ValueError] after [cmake --help] has
    run, and [_build_systems] stays [None], so the next call starts
    [cmake --help] again. *)
Theorem X6_failed_discovery_is_not_cached (h : Host) (st : Store) (exe : string) :
  _find_cmake h None = Ok exe ->
  _build_systems st = None ->
  Exists (fun line => 1 < count "=" line)
         (captured (Py.split Py.nl (popen_stdout h [exe; "--help"])) false) ->
  exists st',
    build_systems h st = (Raise ValueError, st') /\
    _build_systems st' = None /\
    trace st' = trace st ++ [Popen [exe; "--help"]] /\
    exists st'',
      build_systems h st' = (Raise ValueError, st'') /\
      trace st'' = trace st ++ [Popen [exe; "--help"]; Popen [exe; "--help"]].
Proof.
  intros F C HE.
  assert (R : forall s, _build_systems s = None ->
            exists s', build_systems h s = (Raise ValueError, s') /\
                       _build_systems s' = None /\
                       trace s' = trace s ++ [Popen [exe; "--help"]]).
  { intros s Cs. unfold build_systems, bind, get_store, lift, emit.
    rewrite Cs, F.
    match goal with |- context [scan ?ls ?b ?g ?s0] =>
      destruct (scan_raises ls b g s0 HE) as (s' & S);
      pose proof (scan_inert ls b g s0 _ _ S) as [T K]
    end.
    rewrite S. exists s'. split; [reflexivity|]. simpl in T, K.
    split; [congruence | exact T]. }
  destruct (R st C) as (st' & B & K & T).
  exists st'. split; [exact B|]. split; [exact K|]. split; [exact T|].
  destruct (R st' K) as (st'' & B' & _ & T').
  exists st''. split; [exact B'|]. rewrite T', T, <- app_assoc. reflexivity.
Qed.

Lemma X6_failed_discovery_is_not_cached_witness :
  exists st',
    build_systems (host_printing broken_help) fresh = (Raise ValueError, st') /\
    _build_systems st' = None /\
    trace st' = trace fresh ++ [Popen ["/usr/bin/cmake"; "--help"]] /\
    exists st'',
      build_systems (host_printing broken_help) st' = (Raise ValueError, st'') /\
      trace st'' = trace fresh ++ [Popen ["/usr/bin/cmake"; "--help"];
                                   Popen ["/usr/bin/cmake"; "--help"]].
Proof.
  apply (X6_failed_discovery_is_not_cached (host_printing broken_help) fresh
           "/usr/bin/cmake").
  - reflexivity.
  - reflexivity.
  - vm_compute. apply Exists_cons_tl, Exists_cons_hd. repeat constructor.
Defined.

Lemma setitem_get (k v x : string) (d : Dict.t) :
  Dict.get x (Dict.setitem k v d) = if String.eqb x k then Some v else Dict.get x d.
Proof.
  induction d as [|[k' v'] rest IH]; simpl.
  - reflexivity.
  - destruct (String.eqb k k') eqn:E; simpl.
    + apply String.eqb_eq in E. subst k'. destruct (String.eqb x k); reflexivity.
    + rewrite IH. destruct (String.eqb x k') eqn:E'; [|reflexivity].
      apply String.eqb_eq in E'. subst k'.
      rewrite String.eqb_sym in E. now rewrite E.
Qed.

Lemma setitem_NoDup (k v : string) (d : Dict.t) :
  NoDup (Dict.keys d) -> NoDup (Dict.keys (Dict.setitem k v d)).
Proof.
  induction d as [|[k' v'] rest IH]; simpl; intros H.
  - constructor; [simpl; tauto | constructor].
  - inversion H as [|? ? N R]; subst.
    destruct (String.eqb k k') eqn:E; simpl.
    + apply String.eqb_eq in E. subst k'. now constructor.
    + constructor; [|now apply IH].
      fold (Dict.keys (Dict.setitem k v rest)). rewrite setitem_keys.
      apply String.eqb_neq in E. intros [->|I]; [now elim E | now elim N].
Qed.

Lemma mirrored_invariant (g : list string) :
  forall d : Dict.t,
    NoDup (Dict.keys d) ->
    (forall k v, Dict.get k d = Some v -> v = k) ->
    let d' := fold_left (fun d kv => Dict.setitem (fst kv) (snd kv) d)
                        (combine g g) d in
    NoDup (Dict.keys d') /\ (forall k v, Dict.get k d' = Some v -> v = k).
Proof.
  induction g as [|n rest IH]; intros d N Mi; simpl; [auto|].
  apply IH.
  - now apply setitem_NoDup.
  - intros k v. rewrite setitem_get.
    destruct (String.eqb k n) eqn:E; [|apply Mi].
    apply String.eqb_eq in E. congruence.
Qed.

(** The catalog a first discovery builds, [dict(zip(generators,
    generators))], lists every parsed name once however often the help text
    repeats it, maps every key to itself, and has exactly the parsed names as
    keys. *)
Theorem X7_catalog_is_mirrored_without_duplicates (h : Host) (st st1 : Store)
    (exe : string) (catalog : Dict.t) :
  _find_cmake h None = Ok exe ->
  _build_systems st = None ->
  build_systems h st = (Ok catalog, st1) ->
  NoDup (Dict.keys catalog) /\
  (forall k v, Dict.get k catalog = Some v -> v = k) /\
  (forall k, In k (Dict.keys catalog) <-> Dict.get k catalog = Some k) /\
  (Forall (fun line => count "=" line <= 1)
          (captured (Py.split Py.nl (popen_stdout h [exe; "--help"])) false) ->
   forall k,
     In k (Dict.keys catalog) <->
     exists line,
       In line (captured (Py.split Py.nl (popen_stdout h [exe; "--help"])) false) /\
       name_of line = k).
Proof.
  intros F C B.
  assert (E : exists g, catalog = Dict.of_pairs (combine g g) /\
              (Forall (fun line => count "=" line <= 1)
                 (captured (Py.split Py.nl (popen_stdout h [exe; "--help"])) false) ->
               g = map name_of
                     (captured (Py.split Py.nl (popen_stdout h [exe; "--help"])) false))).
  { revert B. unfold build_systems, bind, get_store, lift, emit, set_build_systems, ret.
    rewrite C, F.
    destruct (scan _ _ _ _) as [[g|e] s1] eqn:S; [|discriminate].
    intros [= <- _]. exists g. split; [reflexivity|].
    intros HF. rewrite scan_ok in S by exact HF. now inversion S. }
  destruct E as (g & -> & G).
  destruct (mirrored_invariant g [] (NoDup_nil _)) as [N Mi];
    [intros k v H; discriminate H|]. cbv zeta in N, Mi.
  fold (Dict.of_pairs (combine g g)) in N, Mi.
  split; [exact N|]. split; [exact Mi|]. split.
  - intros k. split.
    + intros I. destruct (Dict.get k (Dict.of_pairs (combine g g))) as [v|] eqn:Gk.
      * now rewrite (Mi k v Gk).
      * exfalso. clear -I Gk. unfold Dict.keys in I.
        induction (Dict.of_pairs (combine g g)) as [|[k' v'] rest IH];
          simpl in *; [exact I|].
        destruct (String.eqb k k') eqn:E; [discriminate Gk|].
        apply String.eqb_neq in E. destruct I as [->|I]; [now elim E | auto].
    + intros Gk. clear -Gk. unfold Dict.keys.
      induction (Dict.of_pairs (combine g g)) as [|[k' v'] rest IH];
        simpl in *; [discriminate Gk|].
      destruct (String.eqb k k') eqn:E; [|right; auto].
      apply String.eqb_eq in E. now left.
  - intros HF k. rewrite catalog_keys, (G HF), in_map_iff.
    split; intros (line & A & A'); exists line; auto.
Qed.

Lemma X7_catalog_is_mirrored_without_duplicates_witness :
  NoDup (Dict.keys [("make", "make")]) /\
  (forall k v, Dict.get k [("make", "make")] = Some v -> v = k) /\
  (forall k, In k (Dict.keys [("make", "make")])
             <-> Dict.get k [("make", "make")] = Some k) /\
  (Forall (fun line => count "=" line <= 1)
          (captured (Py.split Py.nl
             (popen_stdout (host_printing shadowing_help) ["/usr/bin/cmake"; "--help"]))
             false) ->
   forall k,
     In k (Dict.keys [("make", "make")]) <->
     exists line,
       In line (captured (Py.split Py.nl
                  (popen_stdout (host_printing shadowing_help)
                     ["/usr/bin/cmake"; "--help"])) false) /\
       name_of line = k).
Proof.
  apply (X7_catalog_is_mirrored_without_duplicates (host_printing shadowing_help)
           fresh (snd (build_systems (host_printing shadowing_help) fresh))
           "/usr/bin/cmake").
  - reflexivity.
  - reflexivity.
  - vm_compute. reflexivity.
Defined.

Lemma last_default_origin (cap : list string) :
  forall (init : option string) (n : string),
    last_default cap init = Some n ->
    init = Some n \/ exists line, In line cap /\ marked line = true /\ name_of line = n.
Proof.
  induction cap as [|l rest IH]; intros init n; unfold last_default; simpl.
  - auto.
  - intros H. apply IH in H. destruct H as [H|(line & I & Hm & Hn)].
    + destruct (marked l) eqn:Ml; [|auto].
      right. exists l. split; [now left|]. split; [exact Ml | congruence].
    + right. exists line. auto.
Qed.

(** A default that a first discovery records is one of the catalog's
    keys: it is the name of a captured line that carries the marker. *)
Theorem X8_default_is_a_catalog_key (h : Host) (st st1 : Store) (exe : string)
    (catalog : Dict.t) (name : string) :
  _find_cmake h None = Ok exe ->
  _build_systems st = None ->
  _default_build_system st = None ->
  Forall (fun line => count "=" line <= 1)
         (captured (Py.split Py.nl (popen_stdout h [exe; "--help"])) false) ->
  build_systems h st = (Ok catalog, st1) ->
  _default_build_system st1 = Some name ->
  In name (Dict.keys catalog) /\
  exists line,
    In line (captured (Py.split Py.nl (popen_stdout h [exe; "--help"])) false) /\
    parse_generator line = Ok (name, true).
Proof.
  intros F C D HF B Hd.
  pose proof (build_systems_discovers h st exe F C HF) as B'. cbv zeta in B'.
  rewrite B' in B. inversion B as [[Ec Es]]. subst st1. simpl in Hd.
  rewrite D in Hd. apply last_default_origin in Hd.
  destruct Hd as [Hd|(line & I & Hm & Hn)]; [discriminate Hd|].
  split.
  - apply catalog_keys. rewrite <- Hn. now apply in_map.
  - exists line. split; [exact I|].
    unfold marked, name_of in Hm, Hn.
    destruct (parse_generator line) as [[n b]|e]; [|discriminate Hm]. congruence.
Qed.

Lemma X8_default_is_a_catalog_key_witness :
  In "Unix Makefiles"
     (Dict.keys [("Unix Makefiles", "Unix Makefiles"); ("Ninja", "Ninja");
                 ("Visual Studio 16 2019", "Visual Studio 16 2019")]) /\
  exists line,
    In line (captured (Py.split Py.nl
               (popen_stdout (host_printing cmake_help) ["/usr/bin/cmake"; "--help"]))
               false) /\
    parse_generator line = Ok ("Unix Makefiles", true).
Proof.
  apply (X8_default_is_a_catalog_key (host_printing cmake_help) fresh
           (snd (build_systems (host_printing cmake_help) fresh)) "/usr/bin/cmake").
  - reflexivity.
  - reflexivity.
  - reflexivity.
  - vm_compute. repeat constructor.
  - vm_compute. reflexivity.
  - reflexivity.
Defined.

(** ** Parsed names *)

Lemma lstrip_other (c : ascii) (rest : string) :
  c <> " "%char -> Py.lstrip (String c rest) = String c rest.
Proof.
  intros N. destruct c as [[] [] [] [] [] [] [] []]; try reflexivity.
  now elim N.
Qed.

Lemma lstrip_first (s : string) : first_char (Py.lstrip s) <> Some " "%char.
Proof.
  induction s as [|c rest IH]; [discriminate|].
  destruct (ascii_dec c " ") as [->|N].
  - exact IH.
  - rewrite (lstrip_other c rest N). simpl. congruence.
Qed.

Lemma rstrip_first (s : string) :
  first_char s <> Some " "%char -> first_char (Py.rstrip s) <> Some " "%char.
Proof.
  destruct s as [|c rest]; [intros _; discriminate|].
  simpl. intros N. destruct (Py.rstrip rest).
  - destruct (Ascii.eqb c " ") eqn:E; [discriminate | exact N].
  - exact N.
Qed.

Lemma rstrip_last (s : string) : last_char (Py.rstrip s) <> Some " "%char.
Proof.
  induction s as [|c rest IH]; [discriminate|].
  simpl. destruct (Py.rstrip rest) as [|d kept].
  - destruct (Ascii.eqb c " ") eqn:E; [discriminate|].
    apply Ascii.eqb_neq in E. simpl. congruence.
  - exact IH.
Qed.

Lemma split_pieces (c : ascii) (s : string) :
  forall piece, In piece (Py.split c s) -> Py.contains c piece = false.
Proof.
  induction s as [|d rest IH]; simpl.
  - intros piece [<-|[]]. reflexivity.
  - destruct (Ascii.eqb d c) eqn:E.
    + intros piece [<-|I]; [reflexivity | now apply IH].
    + destruct (Py.split c rest) as [|p ps].
      * intros piece [<-|[]]. simpl. now rewrite E.
      * intros piece [<-|I].
        -- simpl. rewrite E. apply IH. now left.
        -- apply IH. now right.
Qed.

Lemma replace_from_erases (old : string) (c : ascii) (s : string) :
  forall skip,
    Py.contains c s = false ->
    Py.contains c (Py.replace_from old EmptyString skip s) = false.
Proof.
  induction s as [|d rest IH]; intros skip H; [reflexivity|].
  cbn [Py.contains] in H. apply orb_false_iff in H. destruct H as [H1 H2].
  cbn [Py.replace_from]. destruct skip.
  - destruct (String.prefix old (String d rest)); cbn [String.append Py.contains].
    + now apply IH.
    + rewrite H1. now apply IH.
  - now apply IH.
Qed.

Lemma drop_contains (c : ascii) (n : nat) :
  forall s, Py.contains c s = false -> Py.contains c (Py.drop n s) = false.
Proof.
  induction n as [|n IH]; intros s H; [exact H|].
  destruct s as [|d rest]; [reflexivity|]. simpl in *.
  apply orb_false_iff in H. now apply IH.
Qed.

Lemma lstrip_contains (c : ascii) (s : string) :
  Py.contains c s = false -> Py.contains c (Py.lstrip s) = false.
Proof.
  induction s as [|d rest IH]; [reflexivity|]. intros H.
  destruct (ascii_dec d " ") as [->|N].
  - simpl in H. apply orb_false_iff in H. now apply IH.
  - now rewrite (lstrip_other d rest N).
Qed.

Lemma rstrip_contains (c : ascii) (s : string) :
  Py.contains c s = false -> Py.contains c (Py.rstrip s) = false.
Proof.
  induction s as [|d rest IH]; [reflexivity|]. simpl. intros H.
  apply orb_false_iff in H. destruct H as [H1 H2]. specialize (IH H2).
  destruct (Py.rstrip rest) as [|e kept].
  - destruct (Ascii.eqb d " "); simpl; [reflexivity | now rewrite H1].
  - simpl in *. now rewrite H1, IH.
Qed.

(** Every name discovery parses is trimmed and free of "=": it neither
    starts nor ends with a space, whatever padding and markers the line
    has. *)
Theorem X9_parsed_names_are_trimmed (line name : string) (is_default : bool) :
  parse_generator line = Ok (name, is_default) ->
  first_char name <> Some " "%char /\
  last_char name <> Some " "%char /\
  Py.contains "=" name = false.
Proof.
  unfold parse_generator.
  pose proof (split_pieces "=" line) as SP.
  destruct (Py.split "=" line) as [|a [|b [|c t]]]; try discriminate.
  intros [= <- _]. unfold Py.strip. split; [|split].
  - apply rstrip_first, lstrip_first.
  - apply rstrip_last.
  - apply rstrip_contains, lstrip_contains.
    assert (A : Py.contains "=" (Py.replace a "[arch]" EmptyString) = false).
    { apply replace_from_erases, SP. now left. }
    destruct (Py.startswith _ _); [exact (drop_contains "=" 2 _ A) | exact A].
Qed.

Lemma X9_parsed_names_are_trimmed_witness :
  first_char "Visual Studio 16 2019" <> Some " "%char /\
  last_char "Visual Studio 16 2019" <> Some " "%char /\
  Py.contains "=" "Visual Studio 16 2019" = false.
Proof.
  apply (X9_parsed_names_are_trimmed
           "  Visual Studio 16 2019 [arch] = Generates VS project files."
           "Visual Studio 16 2019" false).
  reflexivity.
Defined.

(** ** The configure command: module path and generator *)

(** The module-path define of every configure command carries the shell's
    key token for CMAKE_MODULE_PATH with each backslash turned into a forward
    slash: the value has the token's length and holds no backslash. *)
Theorem X10_module_path_has_no_backslash (h : Host) (self : Self)
    (exe install_path : string) (install : bool) (build_type : BuildType)
    (st st1 : Store) (cmd : list string) :
  configure_command h self exe install_path install build_type st = (Ok cmd, st1) ->
  exists value,
    In ("-DCMAKE_MODULE_PATH=" ++ value)%string cmd /\
    value = Py.replace (get_key_token h "CMAKE_MODULE_PATH") Py.backslash "/" /\
    Py.contains (Ascii.ascii_of_nat 92) value = false /\
    String.length value = String.length (get_key_token h "CMAKE_MODULE_PATH").
Proof.
  intros C.
  exists (Py.replace (get_key_token h "CMAKE_MODULE_PATH") Py.backslash "/").
  destruct (replace_backslash (get_key_token h "CMAKE_MODULE_PATH")) as [R1 R2].
  split; [|auto].
  assert (D : In ("-DCMAKE_MODULE_PATH=" ++
                  Py.replace (get_key_token h "CMAKE_MODULE_PATH") Py.backslash "/")%string
                 (defines h self install_path install build_type)).
  { unfold defines. right. left. reflexivity. }
  destruct (Py.truthy (cmake_build_system self)) eqn:T.
  - destruct (cmake_build_system self) as [name|] eqn:S; [|discriminate T].
    assert (N : name <> EmptyString) by (intros ->; discriminate T).
    destruct (configure_command_selected h self _ _ _ _ name _ _ _ S N C)
      as (g & catalog & _ & _ & ->).
    cbn [app In]. right. right. right. rewrite !in_app_iff. auto.
  - rewrite (configure_command_unselected h self _ _ _ _ _ _ _ T C).
    cbn [app In]. right. right. right. rewrite !in_app_iff. auto.
Qed.

Lemma X10_module_path_has_no_backslash_witness :
  exists value,
    In ("-DCMAKE_MODULE_PATH=" ++ value)%string
       ["cmake"; "-d"; "/src/pkg"; "-Wno-dev"; "-DCMAKE_INSTALL_PREFIX=/a/b";
        "-DCMAKE_MODULE_PATH=%CMAKE_MODULE_PATH%"; "-DCMAKE_BUILD_TYPE=Release";
        "-DREZ_BUILD_TYPE=central"; "-DREZ_BUILD_INSTALL=0"; "-DCENTRAL=1"] /\
    value = Py.replace
              (get_key_token (host_custom "windows" None true cmake_help)
                 "CMAKE_MODULE_PATH") Py.backslash "/" /\
    Py.contains (Ascii.ascii_of_nat 92) value = false /\
    String.length value
      = String.length (get_key_token (host_custom "windows" None true cmake_help)
                         "CMAKE_MODULE_PATH").
Proof.
  apply (X10_module_path_has_no_backslash
           (host_custom "windows" None true cmake_help)
           (self_with wno_dev None false None) "cmake" "/a/b" false central fresh
           (snd (build_systems (host_custom "windows" None true cmake_help) fresh))).
  vm_compute. reflexivity.
Defined.

Lemma first_discovery_shape (h : Host) (st st1 : Store) (catalog : Dict.t) :
  _build_systems st = None ->
  build_systems h st = (Ok catalog, st1) ->
  exists generators, catalog = Dict.of_pairs (combine generators generators).
Proof.
  intros C. unfold build_systems, bind, get_store, lift, emit, set_build_systems, ret.
  rewrite C. destruct (_find_cmake h None) as [exe|e]; [|discriminate].
  destruct (scan _ _ _ _) as [[g|e] s1]; [|discriminate].
  intros [= <- _]. now exists g.
Qed.

Lemma mirrored_get (g : list string) (k : string) :
  forall d : Dict.t,
    In k g \/ Dict.get k d = Some k ->
    Dict.get k (fold_left (fun d kv => Dict.setitem (fst kv) (snd kv) d)
                          (combine g g) d) = Some k.
Proof.
  induction g as [|n rest IH]; intros d H; simpl.
  - destruct H as [[]|H]. exact H.
  - apply IH. rewrite setitem_get.
    destruct (String.eqb k n) eqn:E.
    + apply String.eqb_eq in E. subst n. now right.
    + apply String.eqb_neq in E. destruct H as [[H|H]|H]; auto. now elim E.
Qed.

Lemma resolve_generator_run (h : Host) (name generator : string)
    (st st0 : Store) (catalog : Dict.t) :
  build_systems h st = (Ok catalog, st0) ->
  Dict.get name (if Py.mem name (Dict.keys catalog)
                 then catalog else legacy_build_systems) = Some generator ->
  resolve_generator h name st = (Ok generator, st0).
Proof.
  intros B G. unfold resolve_generator. rewrite (bind_ok _ _ _ _ _ B).
  destruct (Py.mem name (Dict.keys catalog)); cbn [negb].
  - rewrite (bind_ok _ _ _ _ _
               (build_systems_cached h st0 catalog (build_systems_caches h _ _ _ B))).
    unfold lift, subscript. now rewrite G.
  - unfold lift, subscript. now rewrite G.
Qed.

Lemma configure_command_run (h : Host) (self : Self) (exe install_path : string)
    (install : bool) (build_type : BuildType) (name generator : string)
    (st st0 : Store) :
  cmake_build_system self = Some name ->
  name <> EmptyString ->
  resolve_generator h name st = (Ok generator, st0) ->
  configure_command h self exe install_path install build_type st =
    (Ok ([exe; "-d"; working_dir self] ++ cmake_args (settings self)
         ++ Py.or_nil (build_args self)
         ++ defines h self install_path install build_type
         ++ ["-G"; generator] ++ central_define h build_type), st0).
Proof.
  intros S N R. unfold configure_command. rewrite S.
  destruct name as [|c name]; [now elim N|].
  unfold bind. rewrite R. unfold ret, defines, central_define.
  rewrite fmt_d_install.
  destruct (_ && _ && _)%bool; repeat rewrite <- app_assoc; reflexivity.
Qed.

(** A legacy alias that is not a discovered name resolves through
    [legacy_build_systems]: the configure command carries [-G] and the
    alias's generator ("Unix Makefiles" for "make", "NMake Makefiles" for
    "nmake", and so on) right after the five defines. *)
Theorem X11_legacy_alias_resolves (h : Host) (self : Self)
    (exe install_path : string) (install : bool) (build_type : BuildType)
    (st st0 : Store) (catalog : Dict.t) (name generator : string) :
  cmake_build_system self = Some name ->
  build_systems h st = (Ok catalog, st0) ->
  ~ In name (Dict.keys catalog) ->
  Dict.get name legacy_build_systems = Some generator ->
  configure_command h self exe install_path install build_type st =
    (Ok ([exe; "-d"; working_dir self] ++ cmake_args (settings self)
         ++ Py.or_nil (build_args self)
         ++ defines h self install_path install build_type
         ++ ["-G"; generator] ++ central_define h build_type), st0) /\
  In (name, generator)
     [("eclipse", "Eclipse CDT4 - Unix Makefiles");
      ("codeblocks", "CodeBlocks - Unix Makefiles");
      ("make", "Unix Makefiles"); ("nmake", "NMake Makefiles");
      ("mingw", "MinGW Makefiles"); ("xcode", "Xcode")].
Proof.
  intros S B NI G.
  assert (P : In (name, generator) legacy_build_systems).
  { clear -G. induction legacy_build_systems as [|[k v] rest IH];
      simpl in *; [discriminate G|].
    destruct (String.eqb name k) eqn:E; [|right; auto].
    apply String.eqb_eq in E. left. congruence. }
  split; [|exact P].
  assert (N : name <> EmptyString).
  { intros ->. simpl in P.
    repeat (destruct P as [P|P]; [discriminate P|]). exact P. }
  apply (configure_command_run h self _ _ _ _ name generator st st0 S N).
  apply (resolve_generator_run h name generator st st0 catalog B).
  destruct (Py.mem name (Dict.keys catalog)) eqn:M; [|exact G].
  apply mem_In in M. now elim NI.
Qed.

Lemma X11_legacy_alias_resolves_witness :
  configure_command (host_printing cmake_help)
    (self_with wno_dev (Some "make") false None) "/usr/bin/cmake" "/a/b" true
    local fresh =
    (Ok (["/usr/bin/cmake"; "-d"; "/src/pkg"] ++ ["-Wno-dev"] ++ []
         ++ defines (host_printing cmake_help)
              (self_with wno_dev (Some "make") false None) "/a/b" true local
         ++ ["-G"; "Unix Makefiles"] ++ central_define (host_printing cmake_help) local),
     snd (build_systems (host_printing cmake_help) fresh)) /\
  In ("make", "Unix Makefiles")
     [("eclipse", "Eclipse CDT4 - Unix Makefiles");
      ("codeblocks", "CodeBlocks - Unix Makefiles");
      ("make", "Unix Makefiles"); ("nmake", "NMake Makefiles");
      ("mingw", "MinGW Makefiles"); ("xcode", "Xcode")].
Proof.
  apply (X11_legacy_alias_resolves (host_printing cmake_help)
           (self_with wno_dev (Some "make") false None) "/usr/bin/cmake" "/a/b"
           true local fresh (snd (build_systems (host_printing cmake_help) fresh))
           [("Unix Makefiles", "Unix Makefiles"); ("Ninja", "Ninja");
            ("Visual Studio 16 2019", "Visual Studio 16 2019")]).
  - reflexivity.
  - vm_compute. reflexivity.
  - simpl. intros H. repeat (destruct H as [H|H]; [discriminate H|]). exact H.
  - reflexivity.
Defined.

(** A name the first discovery found is passed to [-G] verbatim, also when
    it is spelled like a legacy alias: the discovered catalog shadows
    [legacy_build_systems]. *)
Theorem X12_discovered_name_is_passed_verbatim (h : Host) (self : Self)
    (exe install_path : string) (install : bool) (build_type : BuildType)
    (st st0 : Store) (catalog : Dict.t) (name : string) :
  _build_systems st = None ->
  cmake_build_system self = Some name ->
  name <> EmptyString ->
  build_systems h st = (Ok catalog, st0) ->
  In name (Dict.keys catalog) ->
  configure_command h self exe install_path install build_type st =
    (Ok ([exe; "-d"; working_dir self] ++ cmake_args (settings self)
         ++ Py.or_nil (build_args self)
         ++ defines h self install_path install build_type
         ++ ["-G"; name] ++ central_define h build_type), st0).
Proof.
  intros C S N B I.
  apply (configure_command_run h self _ _ _ _ name name st st0 S N).
  apply (resolve_generator_run h name name st st0 catalog B).
  pose proof I as M. apply mem_In in M. rewrite M.
  destruct (first_discovery_shape h st st0 catalog C B) as (g & ->).
  apply (proj1 (catalog_keys g name)) in I.
  unfold Dict.of_pairs. apply mirrored_get. now left.
Qed.

Lemma X12_discovered_name_is_passed_verbatim_witness :
  configure_command (host_printing shadowing_help)
    (self_with wno_dev (Some "make") false None) "/usr/bin/cmake" "/a/b" true
    local fresh =
    (Ok (["/usr/bin/cmake"; "-d"; "/src/pkg"] ++ ["-Wno-dev"] ++ []
         ++ defines (host_printing shadowing_help)
              (self_with wno_dev (Some "make") false None) "/a/b" true local
         ++ ["-G"; "make"] ++ central_define (host_printing shadowing_help) local),
     snd (build_systems (host_printing shadowing_help) fresh)).
Proof.
  apply (X12_discovered_name_is_passed_verbatim (host_printing shadowing_help)
           (self_with wno_dev (Some "make") false None) "/usr/bin/cmake" "/a/b"
           true local fresh (snd (build_systems (host_printing shadowing_help) fresh))
           [("make", "make")]).
  - reflexivity.
  - reflexivity.
  - discriminate.
  - vm_compute. reflexivity.
  - simpl. now left.
Defined.

(** ** The pipeline: the cmake build driver, failures and success *)

(** Without a [make_binary] the build goes through cmake's own driver: the
    build phase runs [found_exe --build build_path], the child build args and
    [--target ALL_BUILD] on windows or [--target all] elsewhere, with no
    thread-count flag, and the install phase replaces the target by
    [install]. *)
Theorem X13_cmake_build_driver_command (h : Host) (self : Self)
    (context : Context) (variant : Variant) (build_path install_path : string)
    (install : bool) (build_type : BuildType) (st st1 : Store) (exe : string)
    (cmd : list string) :
  Py.truthy (make_binary (settings self)) = false ->
  all_command h self (make_command self exe build_path variant)
    = [exe; "--build"; build_path] ++ Py.or_nil (child_build_args self)
      ++ ["--target";
          if String.eqb (platform_name h) "windows" then "ALL_BUILD" else "all"] /\
  install_command self (make_command self exe build_path variant)
    = [exe; "--build"; build_path] ++ Py.or_nil (child_build_args self)
      ++ ["--target"; "install"] /\
  (_find_cmake h (Some context) = Ok exe ->
   configure_command h self exe install_path install build_type st = (Ok cmd, st1) ->
   configure_retcode context self cmd build_path st1 = 0%Z ->
   write_build_scripts self = false ->
   exists r st2 later,
     build h self context variant build_path install_path install build_type st
       = (Ok r, st2) /\
     phases (trace st2) =
       phases (trace st) ++ cmd
         :: ([exe; "--build"; build_path] ++ Py.or_nil (child_build_args self)
             ++ ["--target";
                 if String.eqb (platform_name h) "windows"
                 then "ALL_BUILD" else "all"])
         :: later).
Proof.
  intros T.
  assert (K : make_command self exe build_path variant
              = [exe; "--build"; build_path] ++ Py.or_nil (child_build_args self)).
  { unfold make_command. destruct (make_binary (settings self)) as [[|c mb]|];
      try reflexivity. discriminate T. }
  assert (A : all_command h self (make_command self exe build_path variant)
    = [exe; "--build"; build_path] ++ Py.or_nil (child_build_args self)
      ++ ["--target";
          if String.eqb (platform_name h) "windows" then "ALL_BUILD" else "all"]).
  { unfold all_command. rewrite T, K. cbn [negb].
    destruct (String.eqb (platform_name h) "windows");
      now rewrite <- app_assoc. }
  split; [exact A|]. split.
  - unfold install_command. rewrite T, K. cbn [negb].
    now rewrite <- !app_assoc.
  - intros F C R W.
    destruct (build_make_run h self context variant build_path install_path install
                build_type st st1 exe cmd F C R W) as (st2 & E & P).
    rewrite A in P. eauto.
Qed.

Lemma X13_cmake_build_driver_command_witness :
  all_command (host_custom "windows" None true cmake_help)
    (self_with wno_dev None false (Some ["--config"; "Release"]))
    (make_command (self_with wno_dev None false (Some ["--config"; "Release"]))
       "cmake" "/b" variant0)
  = ["cmake"; "--build"; "/b"; "--config"; "Release"; "--target"; "ALL_BUILD"].
Proof.
  refine (proj1 (X13_cmake_build_driver_command
    (host_custom "windows" None true cmake_help)
    (self_with wno_dev None false (Some ["--config"; "Release"]))
    (context_returning []) variant0 "/b" "/a/b" true local fresh fresh
    "cmake" [] _)).
  reflexivity.
Defined.

(** [build] only raises before its first phase: an exception comes from the
    tool lookup or from assembling the configure command, and then no
    command has been executed. *)
Theorem X14_build_raises_before_any_phase (h : Host) (self : Self)
    (context : Context) (variant : Variant) (build_path install_path : string)
    (install : bool) (build_type : BuildType) (st st' : Store) (e : exn) :
  build h self context variant build_path install_path install build_type st
    = (Raise e, st') ->
  phases (trace st') = phases (trace st) /\
  ((_find_cmake h (Some context) = Raise e /\ st' = st) \/
   exists exe,
     _find_cmake h (Some context) = Ok exe /\
     configure_command h self exe install_path install build_type st
       = (Raise e, st')).
Proof.
  destruct (_find_cmake h (Some context)) as [exe|e0] eqn:F.
  - destruct (configure_command h self exe install_path install build_type st)
      as [[cmd|e1] st1] eqn:C.
    + rewrite (build_run h self context variant build_path install_path install
                 build_type st st1 exe cmd F C).
      destruct (nonzero _); [discriminate|].
      destruct (write_build_scripts self); [discriminate|].
      destruct (_ && _ && _)%bool; discriminate.
    + unfold build. rewrite (bind_ok _ _ st st exe) by (unfold lift; now rewrite F).
      rewrite (bind_raise _ _ _ _ _ C). intros [= <- <-].
      split; [exact (configure_command_phases h self _ _ _ _ _ _ _ C)|].
      right. exists exe. auto.
  - unfold build. rewrite (bind_raise _ _ st st e0) by (unfold lift; now rewrite F).
    intros [= <- <-]. auto.
Qed.

Lemma X14_build_raises_before_any_phase_witness :
  phases (trace fresh) = phases (trace fresh) /\
  ((_find_cmake (host_custom "linux" None false cmake_help)
      (Some (context_returning []))
    = Raise (RezCMakeError "cmake binary does not exist: cmake") /\ fresh = fresh) \/
   exists exe,
     _find_cmake (host_custom "linux" None false cmake_help)
       (Some (context_returning [])) = Ok exe /\
     configure_command (host_custom "linux" None false cmake_help)
       (self_with wno_dev None false None) exe "/a/b" true local fresh
       = (Raise (RezCMakeError "cmake binary does not exist: cmake"), fresh)).
Proof.
  apply (X14_build_raises_before_any_phase (host_custom "linux" None false cmake_help)
           (self_with wno_dev None false None) (context_returning []) variant0
           "/b" "/a/b" true local fresh fresh).
  reflexivity.
Defined.

Lemma nonzero_zero (rc : Z) : nonzero rc = false -> rc = 0%Z.
Proof.
  unfold nonzero. intros H. apply negb_false_iff in H. now apply Z.eqb_eq.
Qed.

(** A result with [success = True] means that every phase that ran returned
    0: the configure phase, and without [write_build_scripts] the build phase
    and, when install is requested and the build command does not contain
    "install", the install phase. *)
Theorem X15_success_means_every_phase_returned_zero (h : Host) (self : Self)
    (context : Context) (variant : Variant) (build_path install_path : string)
    (install : bool) (build_type : BuildType) (st st1 st2 : Store) (exe : string)
    (cmd : list string) (r : BuildResult) :
  _find_cmake h (Some context) = Ok exe ->
  configure_command h self exe install_path install build_type st = (Ok cmd, st1) ->
  build h self context variant build_path install_path install build_type st
    = (Ok r, st2) ->
  success r = true ->
  configure_retcode context self cmd build_path st1 = 0%Z /\
  (write_build_scripts self = false ->
   build_retcode h context self cmd (make_command self exe build_path variant)
     build_path st1 = 0%Z /\
   (install = true ->
    Py.mem "install" (make_command self exe build_path variant) = false ->
    install_retcode h context self cmd (make_command self exe build_path variant)
      build_path st1 = 0%Z)).
Proof.
  intros F C.
  rewrite (build_run h self context variant build_path install_path install
             build_type st st1 exe cmd F C).
  destruct (nonzero (configure_retcode _ _ _ _ _)) eqn:R0.
  - intros [= <- _] H. discriminate H.
  - apply nonzero_zero in R0. destruct (write_build_scripts self).
    + intros _ _. split; [exact R0 | discriminate].
    + destruct (nonzero (build_retcode _ _ _ _ _ _ _)) eqn:R1; cbn [negb andb].
      * intros [= <- _] H. discriminate H.
      * apply nonzero_zero in R1.
        destruct install; cbn [andb].
        -- destruct (Py.mem "install" _) eqn:M; cbn [negb].
           ++ intros _ _. split; [exact R0|]. intros _. split; [exact R1|].
              intros _ H. discriminate H.
           ++ intros [= <- _] H. simpl in H. apply negb_true_iff in H.
              apply nonzero_zero in H. auto.
        -- intros _ _. split; [exact R0|]. intros _. split; [exact R1|].
           intros H. discriminate H.
Qed.

Lemma X15_success_means_every_phase_returned_zero_witness :
  configure_retcode (context_returning []) (self_with wno_dev None false None)
    ["/usr/bin/cmake"; "-d"; "/src/pkg"; "-Wno-dev"; "-DCMAKE_INSTALL_PREFIX=/a/b";
     "-DCMAKE_MODULE_PATH=${CMAKE_MODULE_PATH}"; "-DCMAKE_BUILD_TYPE=Release";
     "-DREZ_BUILD_TYPE=local"; "-DREZ_BUILD_INSTALL=1"]
    "/b" (snd (build_systems (host_printing cmake_help) fresh)) = 0%Z.
Proof.
  refine (proj1 (X15_success_means_every_phase_returned_zero
    (host_printing cmake_help) (self_with wno_dev None false None)
    (context_returning []) variant0 "/b" "/a/b" true local fresh
    (snd (build_systems (host_printing cmake_help) fresh))
    (snd (build (host_printing cmake_help) (self_with wno_dev None false None)
            (context_returning []) variant0 "/b" "/a/b" true local fresh))
    "/usr/bin/cmake"
    ["/usr/bin/cmake"; "-d"; "/src/pkg"; "-Wno-dev"; "-DCMAKE_INSTALL_PREFIX=/a/b";
     "-DCMAKE_MODULE_PATH=${CMAKE_MODULE_PATH}"; "-DCMAKE_BUILD_TYPE=Release";
     "-DREZ_BUILD_TYPE=local"; "-DREZ_BUILD_INSTALL=1"]
    {| success := true; build_env_script := None |} _ _ _ _)).
  - reflexivity.
  - vm_compute. reflexivity.
  - vm_compute. reflexivity.
  - reflexivity.
Defined.

(** ** The trace of a build *)

Lemma discovery_step_refl (st : Store) : discovery_step st st.
Proof.
  exists []. rewrite app_nil_r. repeat split; simpl; auto.
Qed.

Lemma discovery_step_printed (self : Self) (s : string) (st st' : Store) :
  discovery_step st st' ->
  discovery_step st (with_trace st' (printed self s (trace st'))).
Proof.
  intros (added & T & Q & P & K). unfold printed.
  destruct (verbose self).
  - exists (added ++ [Print s]). simpl. rewrite T, <- app_assoc.
    split; [reflexivity|]. split; [rewrite forallb_app, Q; reflexivity|].
    assert (E : popens (added ++ [Print s]) = popens added).
    { clear. induction added as [|e rest IH]; simpl; [reflexivity|].
      destruct e; simpl; now rewrite IH. }
    rewrite E. auto.
  - exists added. simpl. auto.
Qed.

Lemma build_systems_step (h : Host) (st st' : Store) (r : result Dict.t) :
  build_systems h st = (r, st') -> discovery_step st st'.
Proof.
  unfold build_systems, bind, get_store, lift, emit, set_build_systems, ret.
  destruct (_build_systems st) as [d0|] eqn:C.
  - intros [= _ <-]. apply discovery_step_refl.
  - destruct (_find_cmake h None) as [exe|e].
    + destruct (scan _ _ _ _) as [[g|e] s1] eqn:S;
        apply scan_inert in S; destruct S as [T _]; simpl in T;
        intros [= _ <-]; exists [Popen [exe; "--help"]]; simpl;
        (split; [exact T|]); repeat split; auto; intros N; now elim N.
    + intros [= _ <-]. apply discovery_step_refl.
Qed.

Lemma resolve_generator_step (h : Host) (name : string) (st st' : Store)
    (r : result string) :
  resolve_generator h name st = (r, st') -> discovery_step st st'.
Proof.
  unfold resolve_generator. unfold bind at 1.
  destruct (build_systems h st) as [[d|e] st0] eqn:B.
  - pose proof (build_systems_step h _ _ _ B) as D.
    destruct (negb _).
    + unfold lift. intros [= _ <-]. exact D.
    + rewrite (bind_ok _ _ _ _ _
                 (build_systems_cached h st0 d (build_systems_caches h _ _ _ B))).
      unfold lift. intros [= _ <-]. exact D.
  - intros [= _ <-]. exact (build_systems_step h _ _ _ B).
Qed.

Lemma bind_inv {A B} (m : M A) (k : A -> M B) (st st' : Store) (r : result B) :
  bind m k st = (r, st') ->
  (exists a s1, m st = (Ok a, s1) /\ k a s1 = (r, st')) \/
  (exists e, m st = (Raise e, st') /\ r = Raise e).
Proof.
  unfold bind. destruct (m st) as [[a|e] s1].
  - intros H. left. eauto.
  - intros [= <- <-]. right. eauto.
Qed.

Lemma default_build_system_step (h : Host) (st st' : Store)
    (r : result (option string)) :
  default_build_system h st = (r, st') ->
  discovery_step st st' /\
  (forall dflt, r = Ok dflt -> exists d, _build_systems st' = Some d).
Proof.
  unfold default_build_system. intros H.
  apply bind_inv in H. destruct H as [(d & s1 & B & H)|(e & B & ->)].
  - unfold bind, get_store, ret in H. injection H as <- <-.
    split; [exact (build_systems_step h _ _ _ B)|].
    intros _ _. exists d. exact (build_systems_caches h _ _ _ B).
  - split; [exact (build_systems_step h _ _ _ B) | discriminate].
Qed.

Lemma configure_command_step (h : Host) (self : Self) (exe install_path : string)
    (install : bool) (build_type : BuildType) (st st' : Store)
    (r : result (list string)) :
  configure_command h self exe install_path install build_type st = (r, st') ->
  discovery_step st st'.
Proof.
  unfold configure_command.
  assert (U : forall (cmd : list string) r0 st0,
            (dflt <- default_build_system h ;;
             (if Py.truthy dflt
              then dflt' <- default_build_system h ;;
                   _pr self ("Using default Generator " ++ format_opt dflt')
              else ret tt) ;;;
             ret cmd) st = (r0, st0) ->
            discovery_step st st0).
  { intros cmd r0 st0 H.
    apply bind_inv in H. destruct H as [(dflt & sb & D & H)|(e & D & _)].
    2:{ exact (proj1 (default_build_system_step h _ _ _ D)). }
    destruct (default_build_system_step h _ _ _ D) as [Ds K].
    destruct (K dflt eq_refl) as (d & Kd).
    apply bind_inv in H. destruct H as [(u & s2 & H & H')|(e & H & _)].
    - unfold ret in H'. injection H' as _ <-.
      destruct (Py.truthy dflt).
      + rewrite (bind_ok _ _ _ _ _ (default_build_system_cached h sb d Kd)) in H.
        rewrite _pr_run in H. injection H as _ <-.
        now apply discovery_step_printed.
      + unfold ret in H. injection H as _ <-. exact Ds.
    - destruct (Py.truthy dflt).
      + rewrite (bind_ok _ _ _ _ _ (default_build_system_cached h sb d Kd)) in H.
        rewrite _pr_run in H. discriminate H.
      + discriminate H. }
  intros H. apply bind_inv in H.
  destruct (cmake_build_system self) as [[|c name]|].
  2:{ destruct H as [(cmd & s1 & H & H')|(e & H & _)].
      - unfold ret in H'. injection H' as _ <-.
        apply bind_inv in H. destruct H as [(g & s2 & R & H)|(e & R & _)].
        + unfold ret in H. injection H as _ <-.
          exact (resolve_generator_step h _ _ _ _ R).
        + exact (resolve_generator_step h _ _ _ _ R).
      - apply bind_inv in H. destruct H as [(g & s2 & R & H)|(e' & R & _)].
        + discriminate H.
        + exact (resolve_generator_step h _ _ _ _ R). }
  all: destruct H as [(cmd & s1 & H & H')|(e & H & _)];
    [unfold ret in H'; injection H' as _ <-|]; exact (U _ _ _ H).
Qed.

Lemma popens_app (a b : list event) : popens (a ++ b) = popens a ++ popens b.
Proof.
  induction a as [|e rest IH]; simpl; [reflexivity|].
  destruct e; simpl; now rewrite IH.
Qed.

Lemma phase_cwds_app (a b : list event) :
  phase_cwds (a ++ b) = phase_cwds a ++ phase_cwds b.
Proof.
  induction a as [|e rest IH]; simpl; [reflexivity|].
  destruct e; simpl; now rewrite IH.
Qed.

Lemma scripts_app (a b : list event) : scripts (a ++ b) = scripts a ++ scripts b.
Proof.
  induction a as [|e rest IH]; simpl; [reflexivity|].
  destruct e; simpl; now rewrite IH.
Qed.

Lemma quiet_silent (l : list event) :
  forallb quiet l = true ->
  phases l = [] /\ phase_cwds l = [] /\ scripts l = [].
Proof.
  induction l as [|e rest IH]; simpl; [auto|].
  intros H. apply andb_true_iff in H. destruct H as [Q R].
  destruct e; simpl in *; try discriminate Q; auto.
Qed.

Lemma printed_app (self : Self) (s : string) (tr : list event) :
  printed self s tr = tr ++ (if verbose self then [Print s] else []).
Proof.
  unfold printed. destruct (verbose self); [reflexivity | now rewrite app_nil_r].
Qed.

(** Whatever [build] returns or raises, it only appends to the trace, and
    what it appends holds at most three phases, each run in [build_path], at
    most one [cmake --help] (none when the catalog is cached), and at most
    one forwarding script, written to [os.path.join(build_path,
    "build-env")]. *)
Theorem X16_build_appends_bounded_trace (h : Host) (self : Self)
    (context : Context) (variant : Variant) (build_path install_path : string)
    (install : bool) (build_type : BuildType) (st st' : Store)
    (r : result BuildResult) :
  build h self context variant build_path install_path install build_type st
    = (r, st') ->
  exists added,
    trace st' = trace st ++ added /\
    Forall (fun cwd => cwd = build_path) (phase_cwds added) /\
    List.length (phases added) <= 3 /\
    List.length (popens added) <= 1 /\
    (_build_systems st <> None -> popens added = []) /\
    (scripts added = [] \/ scripts added = [os_path_join h build_path "build-env"]).
Proof.
  destruct (_find_cmake h (Some context)) as [exe|e0] eqn:F.
  2:{ unfold build. rewrite (bind_raise _ _ st st e0) by (unfold lift; now rewrite F).
      intros [= _ <-]. exists []. rewrite app_nil_r. simpl.
      repeat split; auto. }
  destruct (configure_command h self exe install_path install build_type st)
    as [[cmd|e1] st1] eqn:C;
    destruct (configure_command_step h self _ _ _ _ _ _ _ C)
      as (added0 & T0 & Q0 & P0 & K0);
    destruct (quiet_silent added0 Q0) as (S1 & S2 & S3).
  2:{ unfold build. rewrite (bind_ok _ _ st st exe) by (unfold lift; now rewrite F).
      rewrite (bind_raise _ _ _ _ _ C). intros [= _ <-].
      exists added0. rewrite S1, S2, S3. simpl. repeat split; auto. }
  rewrite (build_run h self context variant build_path install_path install
             build_type st st1 exe cmd F C).
  unfold install_history, build_history, configure_history.
  rewrite !printed_app, T0.
  destruct (nonzero _); [|destruct (write_build_scripts self);
                           [|destruct (_ && _ && _)%bool]];
    intros [= _ <-]; cbn [trace with_trace];
    repeat rewrite <- app_assoc;
    (eexists; split; [reflexivity|]);
    repeat rewrite ?phases_app, ?phase_cwds_app, ?scripts_app, ?popens_app;
    rewrite S1, S2, S3;
    destruct (verbose self); cbn [app phases phase_cwds scripts popens List.length];
    rewrite ?app_nil_r, ?Nat.add_0_r;
    (split; [repeat constructor|]);
    (split; [lia|]); (split; [exact P0|]); (split; [exact K0|]); auto.
Qed.

Lemma X16_build_appends_bounded_trace_witness :
  exists added,
    trace (snd (build (host_printing cmake_help) (self_with wno_dev None false None)
                  (context_returning []) variant0 "/b" "/a/b" true local fresh))
      = trace fresh ++ added /\
    Forall (fun cwd => cwd = "/b") (phase_cwds added) /\
    List.length (phases added) <= 3 /\
    List.length (popens added) <= 1 /\
    (_build_systems fresh <> None -> popens added = []) /\
    (scripts added = [] \/
     scripts added = [os_path_join (host_printing cmake_help) "/b" "build-env"]).
Proof.
  apply (X16_build_appends_bounded_trace (host_printing cmake_help)
           (self_with wno_dev None false None) (context_returning []) variant0
           "/b" "/a/b" true local fresh _
           (fst (build (host_printing cmake_help) (self_with wno_dev None false None)
                   (context_returning []) variant0 "/b" "/a/b" true local fresh))).
  vm_compute. reflexivity.
Defined.
